(** * pdf-questions: the question parser, the question-generation tool,
      the text extractor and the download-and-summarize tool

    A shallow embedding of the TypeScript sources

    - [extractTextFromPDF] of the PDF text utility;
    - [pdfFetcherTool], the download-and-summarize tool;
    - [generateQuestionsFromTextTool] and its [parseQuestionsFromText], of
      which the repository holds two copies: they share the tool and differ
      in the parser ([Parser] normalises numbered items and splits on
      question marks, [LineParser] takes one candidate per line);
    - [generateQuestionsFromSummaryStep] of the workflow.

    JavaScript strings are sequences of UTF-16 code units; [length],
    [substring], [trim], [split] and the regular expressions of the parser
    all work on code units, so a string is a [list N] here.  Numbers that
    the code uses as counts ([maxQuestions], lengths, page counts) are
    integers in [Z].  An awaited promise is modelled by its outcome
    (fulfilled with a value, or rejected with the thrown value) together
    with the calls made to the outside; [console] output is not modelled. *)

From Stdlib Require Import String Ascii Numbers.DecimalString.
From Stdlib Require Import NArith ZArith Lia Bool List.
Import ListNotations.

(* ===================================================================== *)
(** ** JavaScript strings and arrays *)
(* ===================================================================== *)

Module JS.

Definition code_unit := N.
Definition jsstring := list code_unit.

(** An ASCII literal of the source as a sequence of code units. *)
Definition lit (s : string) : jsstring :=
  map N_of_ascii (list_ascii_of_string s).
Arguments lit s%_string.

Definition LF : code_unit := 10%N.        (* '\n' *)
Definition SPACE : code_unit := 32%N.     (* ' '  *)
Definition QMARK : code_unit := 63%N.     (* '?'  *)
Definition DOT : code_unit := 46%N.       (* '.'  *)
Definition RPAREN : code_unit := 41%N.    (* ')'  *)
Definition HYPHEN : code_unit := 45%N.    (* '-'  *)
Definition STAR : code_unit := 42%N.      (* '*'  *)
Definition BULLET : code_unit := 8226%N.  (* U+2022 *)

(** ECMAScript WhiteSpace and LineTerminator code points: what
    [String.prototype.trim] strips and what [\s] matches. *)
Definition isWhiteSpace (c : code_unit) : bool :=
  ((9 <=? c) && (c <=? 13)         (* TAB LF VT FF CR *)
   || (c =? 32) || (c =? 160) || (c =? 5760)
   || ((8192 <=? c) && (c <=? 8202))
   || (c =? 8232) || (c =? 8233) || (c =? 8239) || (c =? 8287)
   || (c =? 12288) || (c =? 65279))%N.

(** [\d] without the unicode flag: 0-9. *)
Definition isDigit (c : code_unit) : bool := ((48 <=? c) && (c <=? 57))%N.

Fixpoint takeWhile (p : code_unit -> bool) (s : jsstring) : jsstring :=
  match s with
  | [] => []
  | c :: s' => if p c then c :: takeWhile p s' else []
  end.

Fixpoint dropWhile (p : code_unit -> bool) (s : jsstring) : jsstring :=
  match s with
  | [] => []
  | c :: s' => if p c then dropWhile p s' else s
  end.

Definition trimStart (s : jsstring) : jsstring := dropWhile isWhiteSpace s.
Definition trimEnd (s : jsstring) : jsstring :=
  rev (dropWhile isWhiteSpace (rev s)).

(** [s.trim()] *)
Definition trim (s : jsstring) : jsstring := trimEnd (trimStart s).

(** [s.includes(c)] for a one-character needle. *)
Definition includes (c : code_unit) (s : jsstring) : bool :=
  existsb (N.eqb c) s.

(** [s.split(sep)] for a one-character separator: never the empty array,
    [''.split(sep)] is [['']]. *)
Fixpoint split (sep : code_unit) (s : jsstring) : list jsstring :=
  match s with
  | [] => [[]]
  | c :: s' =>
      if (c =? sep)%N then [] :: split sep s'
      else match split sep s' with
           | [] => [[c]]
           | x :: xs => (c :: x) :: xs
           end
  end.

(** [s.substring(0, n)] for a non-negative integer constant [n]. *)
Definition substring0 (n : nat) (s : jsstring) : jsstring := firstn n s.

(** [a.slice(0, k)] for an integer [k]: a negative end counts from the end
    of the array, and the end is clamped to the array. *)
Definition slice0 {A : Type} (k : Z) (l : list A) : list A :=
  let len := Z.of_nat (length l) in
  let final := if (k <? 0)%Z then Z.max (len + k) 0 else Z.min k len in
  firstn (Z.to_nat final) l.

(** [!s] on a string: only the empty string is falsy. *)
Definition isEmpty (s : jsstring) : bool :=
  match s with
  | [] => true
  | _ :: _ => false
  end.

(** A value is falsy when it is missing ([undefined], [null]) or is the
    empty string. *)
Definition truthy (v : option jsstring) : bool :=
  match v with
  | Some (_ :: _) => true
  | _ => false
  end.

(** [v || dflt] on an optional string. *)
Definition orElse (v : option jsstring) (dflt : jsstring) : jsstring :=
  match v with
  | Some (c :: s) => c :: s
  | _ => dflt
  end.

(** [`${n}`] for an integer number below 10^21 in magnitude: decimal
    digits, with a leading minus sign when negative. *)
Definition numberToString (n : Z) : jsstring :=
  lit (NilEmpty.string_of_int (Z.to_int n)).

End JS.

Import JS.
Arguments lit s%_string : simpl never.

(* ===================================================================== *)
(** ** The regular expressions of the parser *)
(* ===================================================================== *)

Module Regex.

(** One match of [\d+[\.\)]\s*] at the head of [s]: the matched text and
    the rest.  [\d+] is greedy and can give back digits, but every shorter
    run is followed by a digit, so there is a match exactly when the
    maximal run of digits is non-empty and followed by '.' or ')'; [\s*]
    then takes all the white space that follows. *)
Definition matchMarker (s : jsstring) : option (jsstring * jsstring) :=
  match takeWhile isDigit s, dropWhile isDigit s with
  | d :: ds, c :: r =>
      if ((c =? DOT) || (c =? RPAREN))%N
      then Some ((d :: ds) ++ c :: takeWhile isWhiteSpace r,
                 dropWhile isWhiteSpace r)
      else None
  | _, _ => None
  end.

(** [/^\d+[\.\)]/.test(s)], as [line.match(...)] is used for its truth
    value. *)
Definition startsWithNumber (s : jsstring) : bool :=
  match takeWhile isDigit s, dropWhile isDigit s with
  | _ :: _, c :: _ => ((c =? DOT) || (c =? RPAREN))%N
  | _, _ => false
  end.

(** [s.replace(/^\d+[\.\)]\s*/, '')] *)
Definition stripNumber (s : jsstring) : jsstring :=
  match matchMarker s with
  | Some (_, rest) => rest
  | None => s
  end.

(** [s.replace(/^[\-\*\•]\s*/, '')] *)
Definition stripBullet (s : jsstring) : jsstring :=
  match s with
  | c :: r =>
      if ((c =? HYPHEN) || (c =? STAR) || (c =? BULLET))%N
      then dropWhile isWhiteSpace r
      else s
  | [] => []
  end.

(** The global replacement of [\d+[\.\)]\s*] by a line feed followed by
    the match ([$1] is the whole match): the text is scanned from left
    to right; where the expression matches, a line feed and the match are
    written out and the scan resumes after the match; elsewhere one code
    unit is copied.  [skip] counts the code units of the current match
    that are still to be copied. *)
Fixpoint breakBeforeMarkers (skip : nat) (s : jsstring) : jsstring :=
  match s with
  | [] => []
  | c :: s' =>
      match skip with
      | S n => c :: breakBeforeMarkers n s'
      | O =>
          match matchMarker s with
          | Some (m, _) => LF :: c :: breakBeforeMarkers (length m - 1) s'
          | None => c :: breakBeforeMarkers 0 s'
          end
      end
  end.

End Regex.

Import Regex.

(* ===================================================================== *)
(** ** parseQuestionsFromText *)
(* ===================================================================== *)

(** [parseQuestionsFromText] of the copy of the tool that begins with
    [const normalised = text.replace(...)]: numbered items are put on lines
    of their own, lines are split on question marks, every fragment gets a
    question mark. *)
Module Parser.

Definition normalise (text : jsstring) : jsstring :=
  breakBeforeMarkers 0 text.

(** [line.split('?').map(trim).filter(nonempty).map(part => part + '?')] *)
Definition lineSegments (line : jsstring) : list jsstring :=
  map (fun part => part ++ [QMARK])
      (filter (fun part => (0 <? length part)%nat)
              (map trim (split QMARK line))).

Definition segments (text : jsstring) : list jsstring :=
  flat_map lineSegments (split LF (normalise text)).

Definition cleanSegment (segment : jsstring) : jsstring :=
  let cleaned := stripNumber segment in
  let cleaned := stripBullet cleaned in
  trim cleaned.

Definition keep (q : jsstring) : bool :=
  (5 <? length q)%nat && includes QMARK q.

Definition survivors (text : jsstring) : list jsstring :=
  filter keep (map cleanSegment (segments text)).

Definition parseQuestionsFromText (text : jsstring) (maxQuestions : Z)
  : list jsstring :=
  slice0 maxQuestions (survivors text).

End Parser.

(** [parseQuestionsFromText] of the copy of the tool in
    [src/mastra/tools/generate-questions-from-text-tool.ts]: no
    normalisation, one candidate per line, lines kept when they hold a
    question mark or start with a number. *)
Module LineParser.

Definition lines (text : jsstring) : list jsstring :=
  filter (fun line => includes QMARK line || startsWithNumber line)
         (filter (fun line => (0 <? length line)%nat)
                 (map trim (split LF text))).

Definition cleanLine (line : jsstring) : jsstring :=
  let cleaned := stripNumber line in
  let cleaned := stripBullet cleaned in
  trim cleaned.

Definition keep (q : jsstring) : bool := (5 <? length q)%nat.

Definition parseQuestionsFromText (text : jsstring) (maxQuestions : Z)
  : list jsstring :=
  slice0 maxQuestions (filter keep (map cleanLine (lines text))).

End LineParser.

(* ===================================================================== *)
(** ** Exceptions, promises and the calls that leave the program *)
(* ===================================================================== *)

Module Effects.

(** A thrown value: an [Error] with its message, or anything else. *)
Inductive thrown :=
| ErrorObject (message : jsstring)
| OtherValue.

(** [error instanceof Error ? error.message : 'Unknown error'] *)
Definition messageOf (error : thrown) : jsstring :=
  match error with
  | ErrorObject m => m
  | OtherValue => lit "Unknown error"
  end.

(** How a call or an awaited promise ends. *)
Inductive outcome (A : Type) :=
| Returned (a : A)
| Thrown (e : thrown).
Arguments Returned {A} a.
Arguments Thrown {A} e.

Definition Buffer := list Byte.byte.

Record message := { role : jsstring; content : jsstring }.

(** The calls made to the outside, in the order they are made. *)
Inductive event :=
| Fetch (url : jsstring)
| ParseBuffer (buffer : Buffer)
| Stream (messages : list message)
| Generate (messages : list message).

(** A computation: its outcome and the calls it made. *)
Definition M (A : Type) : Type := (outcome A * list event)%type.

Definition ret {A} (a : A) : M A := (Returned a, []).
Definition throw {A} (e : thrown) : M A := (Thrown e, []).
Definition lift {A} (o : outcome A) : M A := (o, []).
Definition emit (ev : event) : M unit := (Returned tt, [ev]).

Definition bind {A B} (m : M A) (k : A -> M B) : M B :=
  match m with
  | (Returned a, t) => let (r, t') := k a in (r, t ++ t')
  | (Thrown e, t) => (Thrown e, t)
  end.

(** [try { m } catch (error) { handler }] *)
Definition catch {A} (m : M A) (handler : thrown -> M A) : M A :=
  match m with
  | (Returned a, t) => (Returned a, t)
  | (Thrown e, t) => let (r, t') := handler e in (r, t ++ t')
  end.

Definition result {A} (m : M A) : outcome A := fst m.
Definition calls {A} (m : M A) : list event := snd m.

Fixpoint foldM {A B} (f : B -> A -> M B) (l : list A) (acc : B) : M B :=
  match l with
  | [] => ret acc
  | a :: l' => bind (f acc a) (foldM f l')
  end.

(** The text stream of a streamed completion: the chunks it yields, and
    the error it ends with when it fails part-way. *)
Record textStream := {
  chunks : list (option jsstring);
  failure : option thrown
}.

Record generation := { text : option jsstring }.

Record agent := {
  stream : list message -> outcome textStream;
  generate : list message -> outcome generation
}.

(** The [mastra] instance handed to a tool: [getAgent] gives the agent,
    gives nothing, or throws. *)
Record mastra := { getAgent : jsstring -> outcome (option agent) }.

(** [mastra?.getAgent(name)] *)
Definition getAgentOpt (m : option mastra) (name : jsstring)
  : M (option agent) :=
  match m with
  | Some m => lift (getAgent m name)
  | None => ret None
  end.

End Effects.

Import Effects.

Declare Scope js_scope.
Delimit Scope js_scope with js.
Notation "x <- m ;; k" := (bind m (fun x => k))
  (at level 61, m at next level, right associativity) : js_scope.
Notation "m ;;; k" := (bind m (fun _ => k))
  (at level 61, right associativity) : js_scope.
Open Scope js_scope.

(* ===================================================================== *)
(** ** generateQuestionsFromTextTool *)
(* ===================================================================== *)

Module QuestionTool.

Definition MAX_TEXT_LENGTH : nat := 4000.

Record context := {
  extractedText : jsstring;
  maxQuestions : option Z
}.

Record toolResult := {
  questions : list jsstring;
  questionCount : Z;
  success : bool
}.

Definition failed : toolResult :=
  {| questions := []; questionCount := 0; success := false |}.

(** The text of the prompt before the embedded document. *)
Definition promptHead (maxQuestions : Z) : jsstring :=
  lit "Generate comprehensive questions based on the following content"
  ++ lit " extracted from a PDF."
  ++ [LF]
  ++ lit "Please create questions that test understanding, analysis,"
  ++ lit " and application of the content."
  ++ [LF]
  ++ lit "Generate up to " ++ numberToString maxQuestions ++ lit " questions:"
  ++ [LF; LF].

Definition prompt (maxQuestions : Z) (extractedText : jsstring)
  : list message :=
  [ {| role := lit "user";
       content := promptHead maxQuestions
                  ++ substring0 MAX_TEXT_LENGTH extractedText |} ].

(** [for await (const chunk of textStream) generatedContent += chunk || ''] *)
Definition drain (s : textStream) : M jsstring :=
  match failure s with
  | Some e => throw e
  | None => ret (concat (map (fun chunk => orElse chunk []) (chunks s)))
  end.

Section Execute.

(** The two copies of the tool differ only in [parseQuestionsFromText]. *)
Variable parseQuestionsFromText : jsstring -> Z -> list jsstring.

(** What follows the stream: the length check and the parse. *)
Definition fromGenerated (generatedContent : jsstring) (maxQuestions : Z)
  : toolResult :=
  if (20 <? length (trim generatedContent))%nat
  then
    let questions := parseQuestionsFromText generatedContent maxQuestions in
    {| questions := questions;
       questionCount := Z.of_nat (length questions);
       success := true |}
  else failed.

(** The body of the [try] block. *)
Definition tryBlock (extractedText : jsstring) (maxQuestions : Z)
           (mastra : option mastra) : M toolResult :=
  agent <- getAgentOpt mastra (lit "textQuestionAgent") ;;
  match agent with
  | None => throw (ErrorObject (lit "Question generator agent not found"))
  | Some agent =>
      let request := prompt maxQuestions extractedText in
      streamResponse <- (emit (Stream request) ;;;
                         lift (stream agent request)) ;;
      generatedContent <- drain streamResponse ;;
      ret (fromGenerated generatedContent maxQuestions)
  end.

Definition execute (context : context) (mastra : option mastra)
  : M toolResult :=
  let extractedText := extractedText context in
  let maxQuestions :=
    match maxQuestions context with Some n => n | None => 10%Z end in
  if isEmpty extractedText || isEmpty (trim extractedText)
  then ret failed
  else catch (tryBlock extractedText maxQuestions mastra)
             (fun error => ret failed).

End Execute.

End QuestionTool.

(* ===================================================================== *)
(** ** generateQuestionsFromSummaryStep
       ([src/mastra/workflows/generate-questions-from-pdf-workflow.ts]) *)
(* ===================================================================== *)

Module Workflow.

(** [pdfSummarySchema], also the output of [pdfFetcherTool]. *)
Record pdfSummary := {
  summary : jsstring;
  fileSize : Z;
  pagesCount : Z;
  characterCount : Z
}.

(** [questionsSchema] *)
Record questionsResult := {
  questions : list jsstring;
  success : bool
}.

Definition failed : questionsResult :=
  {| questions := []; success := false |}.

Section Step.

(** [generateQuestionsFromTextTool.execute], with [mastra] and the
    runtime context already supplied. *)
Variable toolExecute : QuestionTool.context -> M QuestionTool.toolResult.

Definition generateQuestionsFromSummaryStep (inputData : pdfSummary)
  : M questionsResult :=
  let summary := summary inputData in
  if isEmpty summary
  then ret failed
  else catch (result <- toolExecute
                          {| QuestionTool.extractedText := summary;
                             QuestionTool.maxQuestions := None |} ;;
              ret {| questions := QuestionTool.questions result;
                     success := QuestionTool.success result |})
             (fun error => ret failed).

End Step.

(** The step as the workflow runs it: on the tool of either copy. *)
Definition step (parse : jsstring -> Z -> list jsstring)
           (mastra : option mastra) (inputData : pdfSummary)
  : M questionsResult :=
  generateQuestionsFromSummaryStep
    (fun context => QuestionTool.execute parse context mastra) inputData.

End Workflow.

(* ===================================================================== *)
(** ** extractTextFromPDF ([src/mastra/lib/util.ts]) *)
(* ===================================================================== *)

Module Extractor.

(** The parse tree of pdf2json, as far as the extractor reads it. *)
Record textRun := { T : option jsstring }.
Record textItem := { R : option (list textRun) }.
Record page := { Texts : option (list textItem) }.
Record pdfData := { Pages : option (list page) }.

(** The value passed to the [pdfParser_dataError] listener. *)
Record parserFailure := {
  parserError : option jsstring;
  failureMessage : option jsstring
}.

(** The event the parser answers [parseBuffer] with. *)
Inductive parserEvent :=
| DataReady (pdfData : option pdfData)
| DataError (error : parserFailure).

Record extraction := {
  extractedText : jsstring;
  pagesCount : Z
}.

Definition emptyBuffer : jsstring := lit "Invalid PDF file: empty buffer".
Definition noText : jsstring := lit "No text could be extracted from the PDF".

Section Extract.

(** pdf2json and the runtime's [decodeURIComponent] are not part of the
    repository. *)
Variable parseBuffer : Buffer -> parserEvent.
Variable decodeURIComponent : jsstring -> outcome jsstring.

Definition appendRun (extractedText : jsstring) (textRun : textRun)
  : M jsstring :=
  if truthy (T textRun)
  then decodedText <- lift (decodeURIComponent (orElse (T textRun) [])) ;;
       ret (extractedText ++ decodedText ++ [SPACE])
  else ret extractedText.

Definition appendItem (extractedText : jsstring) (textItem : textItem)
  : M jsstring :=
  match R textItem with
  | Some runs => foldM appendRun runs extractedText
  | None => ret extractedText
  end.

Definition appendPage (extractedText : jsstring) (page : page)
  : M jsstring :=
  extractedText <- match Texts page with
                   | Some items => foldM appendItem items extractedText
                   | None => ret extractedText
                   end ;;
  ret (extractedText ++ [LF; LF]).

(** The loops of the [pdfParser_dataReady] listener: the untrimmed text
    and the page count. *)
Definition collect (pdfData : option pdfData) : M (jsstring * Z) :=
  match pdfData with
  | Some {| Pages := Some pages |} =>
      extractedText <- foldM appendPage pages [] ;;
      ret (extractedText, Z.of_nat (length pages))
  | _ => ret ([], 0%Z)
  end.

(** The [pdfParser_dataReady] listener.  It settles the promise: [reject]
    inside the [try] block is not a throw, so the "no text" rejection
    does not pass through the [catch]. *)
Definition onDataReady (pdfData : option pdfData) : M extraction :=
  match collect pdfData with
  | (Returned (extractedText, pageCount), t) =>
      let extractedText := trim extractedText in
      if isEmpty extractedText
      then (Thrown (ErrorObject noText), t)
      else (Returned {| extractedText := extractedText;
                        pagesCount := pageCount |}, t)
  | (Thrown error, t) =>
      (Thrown (ErrorObject (lit "Text extraction failed: "
                            ++ messageOf error)), t)
  end.

(** The [pdfParser_dataError] listener. *)
Definition onDataError (error : parserFailure) : M extraction :=
  throw (ErrorObject
           (lit "PDF parsing failed: "
            ++ orElse (parserError error)
                      (orElse (failureMessage error) (lit "Unknown error")))).

Definition extractTextFromPDF (pdfBuffer : option Buffer) : M extraction :=
  match pdfBuffer with
  | None | Some [] => throw (ErrorObject emptyBuffer)
  | Some pdfBuffer =>
      emit (ParseBuffer pdfBuffer) ;;;
      match parseBuffer pdfBuffer with
      | DataReady pdfData => onDataReady pdfData
      | DataError error => onDataError error
      end
  end.

End Extract.

End Extractor.

(* ===================================================================== *)
(** ** pdfFetcherTool ([src/mastra/tools/download-pdf-tool.ts]) *)
(* ===================================================================== *)

Module Fetcher.

Import Workflow.

(** The response of [fetch], as far as the tool reads it. *)
Record response := {
  ok : bool;
  status : Z;
  statusText : jsstring;
  arrayBuffer : outcome Buffer
}.

Definition placeholder : jsstring := lit "Summary could not be generated".

Definition summaryPrompt (extractedText : jsstring) : list message :=
  [ {| role := lit "user";
       content :=
         lit "Please provide a comprehensive summary of this PDF content:"
         ++ [LF; LF] ++ extractedText |} ].

Section Execute.

Variable fetch : jsstring -> outcome response.
Variable parseBuffer : Buffer -> Extractor.parserEvent.
Variable decodeURIComponent : jsstring -> outcome jsstring.

Definition tryBlock (pdfUrl : jsstring) (mastra : option mastra)
  : M pdfSummary :=
  response <- (emit (Fetch pdfUrl) ;;; lift (fetch pdfUrl)) ;;
  if negb (ok response)
  then throw (ErrorObject
                (lit "Failed to download PDF: "
                 ++ numberToString (status response)
                 ++ [SPACE] ++ statusText response))
  else
    pdfBuffer <- lift (arrayBuffer response) ;;
    extractionResult <- Extractor.extractTextFromPDF
                          parseBuffer decodeURIComponent (Some pdfBuffer) ;;
    let extractedText := Extractor.extractedText extractionResult in
    if isEmpty extractedText || isEmpty (trim extractedText)
    then throw (ErrorObject Extractor.noText)
    else
      pdfSummarizationAgent <- getAgentOpt
                                 mastra (lit "pdfSummarizationAgent") ;;
      match pdfSummarizationAgent with
      | None => throw (ErrorObject (lit "PDF summarization agent not found"))
      | Some pdfSummarizationAgent =>
          let request := summaryPrompt extractedText in
          summaryResult <- (emit (Generate request) ;;;
                            lift (generate pdfSummarizationAgent request)) ;;
          let summary := orElse (text summaryResult) placeholder in
          ret {| summary := summary;
                 fileSize := Z.of_nat (length pdfBuffer);
                 pagesCount := Extractor.pagesCount extractionResult;
                 characterCount := Z.of_nat (length extractedText) |}
      end.

Definition execute (pdfUrl : jsstring) (mastra : option mastra)
  : M pdfSummary :=
  catch (tryBlock pdfUrl mastra)
        (fun error =>
           throw (ErrorObject (lit "Failed to process PDF from URL: "
                               ++ messageOf error))).

End Execute.

End Fetcher.

(* ===================================================================== *)
(** ** downloadAndSummarizePdfStep and pdfToQuestionsWorkflow
       ([src/mastra/workflows/generate-questions-from-pdf-workflow.ts]) *)
(* ===================================================================== *)

Module Pipeline.

Import Workflow.

(** [pdfInputSchema] *)
Record pdfInput := { pdfUrl : jsstring }.

Section Run.

Variable fetch : jsstring -> outcome Fetcher.response.
Variable parseBuffer : Buffer -> Extractor.parserEvent.
Variable decodeURIComponent : jsstring -> outcome jsstring.
Variable parseQuestionsFromText : jsstring -> Z -> list jsstring.

(** The first step hands the result of [pdfFetcherTool.execute] on. *)
Definition downloadAndSummarizePdfStep (mastra : option mastra)
           (inputData : pdfInput) : M pdfSummary :=
  pdfSummary <- Fetcher.execute fetch parseBuffer decodeURIComponent
                                (pdfUrl inputData) mastra ;;
  ret pdfSummary.

(** [.then(downloadAndSummarizePdfStep).then(generateQuestionsFromSummaryStep)]:
    the second step runs on the output of the first; a step that throws ends
    the run. *)
Definition pdfToQuestionsWorkflow (mastra : option mastra)
           (inputData : pdfInput) : M questionsResult :=
  pdfSummary <- downloadAndSummarizePdfStep mastra inputData ;;
  step parseQuestionsFromText mastra pdfSummary.

End Run.

End Pipeline.

(* ===================================================================== *)
(** ** Notions used in the statements *)
(* ===================================================================== *)

(** A string that ends with the code unit [c]. *)
Definition endsWith (c : code_unit) (s : jsstring) : Prop :=
  exists pre, s = pre ++ [c].


(** What can go wrong inside the [try] block of the tool. *)
Inductive generationFailure (mastra : option mastra) (request : list message)
  : thrown -> Prop :=
| NoInstance :
    mastra = None ->
    generationFailure mastra request
      (ErrorObject (lit "Question generator agent not found"))
| NoAgent m :
    mastra = Some m ->
    getAgent m (lit "textQuestionAgent") = Returned None ->
    generationFailure mastra request
      (ErrorObject (lit "Question generator agent not found"))
| LookupThrows m e :
    mastra = Some m ->
    getAgent m (lit "textQuestionAgent") = Thrown e ->
    generationFailure mastra request e
| StreamThrows m a e :
    mastra = Some m ->
    getAgent m (lit "textQuestionAgent") = Returned (Some a) ->
    stream a request = Thrown e ->
    generationFailure mastra request e
| StreamBreaks m a s e :
    mastra = Some m ->
    getAgent m (lit "textQuestionAgent") = Returned (Some a) ->
    stream a request = Returned s ->
    failure s = Some e ->
    generationFailure mastra request e.

(** The text runs of a parsed document. *)
Definition runsOfItem (textItem : Extractor.textItem)
  : list Extractor.textRun :=
  match Extractor.R textItem with
  | Some runs => runs
  | None => []
  end.

Definition runsOfPage (page : Extractor.page) : list Extractor.textRun :=
  match Extractor.Texts page with
  | Some items => flat_map runsOfItem items
  | None => []
  end.

Definition runsOf (pdfData : option Extractor.pdfData)
  : list Extractor.textRun :=
  match pdfData with
  | Some {| Extractor.Pages := Some pages |} => flat_map runsOfPage pages
  | _ => []
  end.

(** A parsed document without text: no run carries a non-empty [T]. *)
Definition withoutText (pdfData : option Extractor.pdfData) : bool :=
  forallb (fun run => negb (truthy (Extractor.T run))) (runsOf pdfData).

(* ===================================================================== *)
(** ** Worked inputs and concrete collaborators *)
(* ===================================================================== *)

Definition oneLine : jsstring :=
  lit "1. What is X? 2. What is Y? 3. What is Z?".

Definition threeQuestions : list jsstring :=
  [lit "What is X?"; lit "What is Y?"; lit "What is Z?"].

Fixpoint eqb_jsstring (s t : jsstring) : bool :=
  match s, t with
  | [], [] => true
  | c :: s', d :: t' => (c =? d)%N && eqb_jsstring s' t'
  | _, _ => false
  end.

(** An agent whose completions are the one chunk [raw]. *)
Definition agentAnswering (raw : jsstring) : agent :=
  {| stream := fun _ => Returned {| chunks := [Some raw]; failure := None |};
     generate := fun _ => Returned {| text := Some raw |} |}.

(** A [mastra] instance in which the agent [name] is registered. *)
Definition mastraWith (name : jsstring) (a : agent) : Effects.mastra :=
  {| getAgent := fun n => if eqb_jsstring n name
                          then Returned (Some a)
                          else Returned None |}.

Definition someSummary : QuestionTool.context :=
  {| QuestionTool.extractedText := lit "A summary of the document.";
     QuestionTool.maxQuestions := None |}.

Definition noQuestionMarks : jsstring :=
  lit "This document has no question marks at all.".

Definition onlyMarkers : jsstring := lit "1. 2. 3. 4. 5. 6. 7. 8. 9.".

(** Two texts of 4001 code units that differ in the last one only. *)
Definition longText (c : code_unit) : jsstring := repeat 97%N 4000 ++ [c].

Definition aSummary : Workflow.pdfSummary :=
  {| Workflow.summary := lit "A summary of the document.";
     Workflow.fileSize := 1024;
     Workflow.pagesCount := 2;
     Workflow.characterCount := 300 |}.

(** An agent whose completion call throws. *)
Definition agentFailing : agent :=
  {| stream := fun _ =>
       Thrown (ErrorObject (lit "maximum context length exceeded"));
     generate := fun _ =>
       Thrown (ErrorObject (lit "maximum context length exceeded")) |}.

(** Two pages; the only runs have a missing and an empty [T]. *)
Definition blankDocument : option Extractor.pdfData :=
  Some {| Extractor.Pages :=
     Some [ {| Extractor.Texts :=
          Some [ {| Extractor.R :=
               Some [ {| Extractor.T := None |};
                      {| Extractor.T := Some [] |} ] |} ] |};
            {| Extractor.Texts := None |} ] |}.

(** One page with the runs "Hello" and "world". *)
Definition helloDocument : option Extractor.pdfData :=
  Some {| Extractor.Pages :=
     Some [ {| Extractor.Texts :=
          Some [ {| Extractor.R :=
               Some [ {| Extractor.T := Some (lit "Hello") |};
                      {| Extractor.T := Some (lit "world") |} ] |} ] |} ] |}.

(** "%PDF", the first bytes of a PDF file. *)
Definition pdfBytes : Buffer := [Byte.x25; Byte.x50; Byte.x44; Byte.x46].

(** A parser that finds text in [pdfBytes] and none in any other buffer. *)
Definition parserStub (buffer : Buffer) : Extractor.parserEvent :=
  match buffer with
  | [Byte.x25; Byte.x50; Byte.x44; Byte.x46] =>
      Extractor.DataReady helloDocument
  | _ => Extractor.DataReady blankDocument
  end.

(** [decodeURIComponent] on text without escape sequences. *)
Definition decodePlain (s : jsstring) : outcome jsstring := Returned s.

(** An agent whose summarization call completes without text. *)
Definition agentSilent : agent :=
  {| stream := fun _ => Returned {| chunks := []; failure := None |};
     generate := fun _ => Returned {| text := None |} |}.

(** A download that succeeds with [pdfBytes]. *)
Definition fetchStub (url : jsstring) : outcome Fetcher.response :=
  Returned {| Fetcher.ok := true;
              Fetcher.status := 200;
              Fetcher.statusText := lit "OK";
              Fetcher.arrayBuffer := Returned pdfBytes |}.

(** [x] is a contiguous part of [s]. *)
Definition infix (x s : jsstring) : Prop :=
  exists pre suf, s = pre ++ x ++ suf.

(** [out] is [s] with line feeds inserted. *)
Inductive lineFeedsInserted : jsstring -> jsstring -> Prop :=
| LfDone : lineFeedsInserted [] []
| LfCopy c out s :
    lineFeedsInserted out s -> lineFeedsInserted (c :: out) (c :: s)
| LfInsert out s :
    lineFeedsInserted out s -> lineFeedsInserted (LF :: out) s.

(** An agent whose stream yields the given chunks. *)
Definition agentChunked (cs : list (option jsstring)) : agent :=
  {| stream := fun _ => Returned {| chunks := cs; failure := None |};
     generate := fun _ => Returned {| text := None |} |}.

(** The error [pdfFetcherTool] throws for the error [inner] of a stage. *)
Definition wrapped (inner : thrown) : thrown :=
  ErrorObject (lit "Failed to process PDF from URL: " ++ messageOf inner).

(** The lookup of the summarization agent with its "not found" error. *)
Definition summarizer (mastra : option mastra) : outcome agent :=
  match mastra with
  | None => Thrown (ErrorObject (lit "PDF summarization agent not found"))
  | Some m =>
      match getAgent m (lit "pdfSummarizationAgent") with
      | Returned (Some a) => Returned a
      | Returned None =>
          Thrown (ErrorObject (lit "PDF summarization agent not found"))
      | Thrown e => Thrown e
      end
  end.

(** The runs of [pdfFetcherTool]: the stage that ends the run, the outcome
    and the calls made. *)
Inductive fetcherRun
          (fetch : jsstring -> outcome Fetcher.response)
          (parseBuffer : Buffer -> Extractor.parserEvent)
          (decodeURIComponent : jsstring -> outcome jsstring)
          (pdfUrl : jsstring) (mastra : option mastra)
  : M Workflow.pdfSummary -> Prop :=
| DownloadThrows inner :
    fetch pdfUrl = Thrown inner ->
    fetcherRun fetch parseBuffer decodeURIComponent pdfUrl mastra
               (Thrown (wrapped inner), [Fetch pdfUrl])
| DownloadRefused response :
    fetch pdfUrl = Returned response ->
    Fetcher.ok response = false ->
    fetcherRun fetch parseBuffer decodeURIComponent pdfUrl mastra
               (Thrown (wrapped
                          (ErrorObject
                             (lit "Failed to download PDF: "
                              ++ numberToString (Fetcher.status response)
                              ++ [SPACE] ++ Fetcher.statusText response))),
                [Fetch pdfUrl])
| BodyThrows response inner :
    fetch pdfUrl = Returned response ->
    Fetcher.ok response = true ->
    Fetcher.arrayBuffer response = Thrown inner ->
    fetcherRun fetch parseBuffer decodeURIComponent pdfUrl mastra
               (Thrown (wrapped inner), [Fetch pdfUrl])
| ExtractionFails response pdfBuffer inner t :
    fetch pdfUrl = Returned response ->
    Fetcher.ok response = true ->
    Fetcher.arrayBuffer response = Returned pdfBuffer ->
    Extractor.extractTextFromPDF parseBuffer decodeURIComponent
                                 (Some pdfBuffer) = (Thrown inner, t) ->
    fetcherRun fetch parseBuffer decodeURIComponent pdfUrl mastra
               (Thrown (wrapped inner), Fetch pdfUrl :: t)
| NoSummarizer response pdfBuffer extractionResult inner :
    fetch pdfUrl = Returned response ->
    Fetcher.ok response = true ->
    Fetcher.arrayBuffer response = Returned pdfBuffer ->
    Extractor.extractTextFromPDF parseBuffer decodeURIComponent
                                 (Some pdfBuffer)
    = (Returned extractionResult, [ParseBuffer pdfBuffer]) ->
    summarizer mastra = Thrown inner ->
    fetcherRun fetch parseBuffer decodeURIComponent pdfUrl mastra
               (Thrown (wrapped inner),
                [Fetch pdfUrl; ParseBuffer pdfBuffer])
| SummaryThrows response pdfBuffer extractionResult a inner :
    fetch pdfUrl = Returned response ->
    Fetcher.ok response = true ->
    Fetcher.arrayBuffer response = Returned pdfBuffer ->
    Extractor.extractTextFromPDF parseBuffer decodeURIComponent
                                 (Some pdfBuffer)
    = (Returned extractionResult, [ParseBuffer pdfBuffer]) ->
    summarizer mastra = Returned a ->
    generate a (Fetcher.summaryPrompt
                  (Extractor.extractedText extractionResult))
    = Thrown inner ->
    fetcherRun fetch parseBuffer decodeURIComponent pdfUrl mastra
               (Thrown (wrapped inner),
                [Fetch pdfUrl; ParseBuffer pdfBuffer;
                 Generate (Fetcher.summaryPrompt
                             (Extractor.extractedText extractionResult))])
| Summarized response pdfBuffer extractionResult a summaryResult :
    fetch pdfUrl = Returned response ->
    Fetcher.ok response = true ->
    Fetcher.arrayBuffer response = Returned pdfBuffer ->
    Extractor.extractTextFromPDF parseBuffer decodeURIComponent
                                 (Some pdfBuffer)
    = (Returned extractionResult, [ParseBuffer pdfBuffer]) ->
    summarizer mastra = Returned a ->
    generate a (Fetcher.summaryPrompt
                  (Extractor.extractedText extractionResult))
    = Returned summaryResult ->
    fetcherRun fetch parseBuffer decodeURIComponent pdfUrl mastra
               (Returned
                  {| Workflow.summary :=
                       orElse (text summaryResult) Fetcher.placeholder;
                     Workflow.fileSize := Z.of_nat (length pdfBuffer);
                     Workflow.pagesCount :=
                       Extractor.pagesCount extractionResult;
                     Workflow.characterCount :=
                       Z.of_nat (length (Extractor.extractedText
                                           extractionResult)) |},
                [Fetch pdfUrl; ParseBuffer pdfBuffer;
                 Generate (Fetcher.summaryPrompt
                             (Extractor.extractedText extractionResult))]).

(** The text of a parsed document as a function of its runs: each run with
    a non-empty [T] gives its decoded text and a space, each page ends with
    two line feeds; the first decoding that throws ends it. *)
Fixpoint decodeRuns (decodeURIComponent : jsstring -> outcome jsstring)
         (runs : list Extractor.textRun) : outcome jsstring :=
  match runs with
  | [] => Returned []
  | run :: runs' =>
      if truthy (Extractor.T run)
      then match decodeURIComponent (orElse (Extractor.T run) []) with
           | Returned decodedText =>
               match decodeRuns decodeURIComponent runs' with
               | Returned t => Returned (decodedText ++ [SPACE] ++ t)
               | Thrown e => Thrown e
               end
           | Thrown e => Thrown e
           end
      else decodeRuns decodeURIComponent runs'
  end.

Fixpoint pagesText (decodeURIComponent : jsstring -> outcome jsstring)
         (pages : list Extractor.page) : outcome jsstring :=
  match pages with
  | [] => Returned []
  | page :: pages' =>
      match decodeRuns decodeURIComponent (runsOfPage page) with
      | Returned t =>
          match pagesText decodeURIComponent pages' with
          | Returned t' => Returned (t ++ [LF; LF] ++ t')
          | Thrown e => Thrown e
          end
      | Thrown e => Thrown e
      end
  end.

Definition documentText (decodeURIComponent : jsstring -> outcome jsstring)
           (pdfData : option Extractor.pdfData) : outcome jsstring :=
  match pdfData with
  | Some {| Extractor.Pages := Some pages |} =>
      pagesText decodeURIComponent pages
  | _ => Returned []
  end.

Definition pageCount (pdfData : option Extractor.pdfData) : Z :=
  match pdfData with
  | Some {| Extractor.Pages := Some pages |} => Z.of_nat (length pages)
  | _ => 0%Z
  end.

(** A [decodeURIComponent] that rejects every text with a '%' in it, as the
    runtime rejects a malformed escape sequence. *)
Definition decodeStrict (s : jsstring) : outcome jsstring :=
  if includes 37%N s
  then Thrown (ErrorObject (lit "URI malformed"))
  else Returned s.

(** One page with the runs "Hello" and "100%". *)
Definition percentDocument : option Extractor.pdfData :=
  Some {| Extractor.Pages :=
     Some [ {| Extractor.Texts :=
          Some [ {| Extractor.R :=
               Some [ {| Extractor.T := Some (lit "Hello") |};
                      {| Extractor.T := Some (lit "100%") |} ] |} ] |} ] |}.

(** A [mastra] instance with a summarization agent that gives no text and a
    question agent that answers [oneLine]. *)
Definition bothAgents : Effects.mastra :=
  {| getAgent := fun n =>
       if eqb_jsstring n (lit "pdfSummarizationAgent")
       then Returned (Some agentSilent)
       else if eqb_jsstring n (lit "textQuestionAgent")
            then Returned (Some (agentAnswering oneLine))
            else Returned None |}.



(** A line with two numbered items and a question mark at its end only. *)
Definition midLine : jsstring :=
  lit "1) Name the parts 2) Why does it matter?".


(** A scan with [p] stops at the head of [s]. *)
Definition stopsAt (p : code_unit -> bool) (s : jsstring) : Prop :=
  match s with
  | [] => True
  | c :: _ => p c = false
  end.

(** [pre] does not end in a digit: a run of digits that follows it starts
    behind it. *)
Definition endsClean (pre : jsstring) : Prop :=
  forall init d, pre = init ++ [d] -> isDigit d = false.


(* ===================================================================== *)
(** * Properties *)
(* ===================================================================== *)

(** ** Proof automation *)

(** Unfolds the plumbing of computations. *)
Ltac run :=
  unfold result, calls, bind, catch, ret, throw, lift, emit, getAgentOpt in *;
  simpl in *.

(** ** Strings and arrays *)

Section StringFacts.

Variable p : code_unit -> bool.

Lemma takeWhile_dropWhile (s : jsstring) :
  takeWhile p s ++ dropWhile p s = s.
Proof.
  induction s as [|c s IH]; simpl; [reflexivity|].
  destruct (p c); simpl; [now rewrite IH | reflexivity].
Qed.

Lemma dropWhile_snoc (s : jsstring) (c : code_unit) :
  p c = false -> dropWhile p (s ++ [c]) = dropWhile p s ++ [c].
Proof.
  intros Hc. induction s as [|d s IH]; simpl.
  - now rewrite Hc.
  - destruct (p d); [exact IH | reflexivity].
Qed.

Lemma dropWhile_head (s : jsstring) :
  match dropWhile p s with
  | [] => True
  | c :: _ => p c = false
  end.
Proof.
  induction s as [|d s IH]; simpl; [exact I|].
  destruct (p d) eqn:E; [exact IH | exact E].
Qed.

Lemma dropWhile_fixed (s : jsstring) :
  match s with
  | [] => True
  | c :: _ => p c = false
  end -> dropWhile p s = s.
Proof. destruct s as [|c s]; simpl; [reflexivity|]. now intros ->. Qed.

Lemma dropWhile_idem (s : jsstring) :
  dropWhile p (dropWhile p s) = dropWhile p s.
Proof. apply dropWhile_fixed, dropWhile_head. Qed.

Lemma dropWhile_suffix (s : jsstring) :
  exists pre, s = pre ++ dropWhile p s.
Proof. exists (takeWhile p s). symmetry. apply takeWhile_dropWhile. Qed.

End StringFacts.

Lemma trimEnd_snoc (s : jsstring) (c : code_unit) :
  isWhiteSpace c = false -> trimEnd (s ++ [c]) = s ++ [c].
Proof.
  intros Hc. unfold trimEnd. rewrite rev_app_distr. simpl. rewrite Hc.
  simpl. now rewrite rev_involutive.
Qed.

Lemma trim_snoc (s : jsstring) (c : code_unit) :
  isWhiteSpace c = false -> trim (s ++ [c]) = trimStart s ++ [c].
Proof.
  intros Hc. unfold trim, trimStart. rewrite dropWhile_snoc by exact Hc.
  now apply trimEnd_snoc.
Qed.

(** [trimEnd] gives the empty string or a string that ends with a code unit
    that is not white space, and it keeps the first code unit of such a
    string. *)
Lemma trimEnd_cases (s : jsstring) :
  trimEnd s = [] \/
  exists pre c, trimEnd s = pre ++ [c] /\ isWhiteSpace c = false.
Proof.
  unfold trimEnd.
  pose proof (dropWhile_head isWhiteSpace (rev s)) as H.
  destruct (dropWhile isWhiteSpace (rev s)) as [|c r]; [now left|].
  right. exists (rev r), c. now split.
Qed.

Lemma trimEnd_prefix (s : jsstring) : exists suf, s = trimEnd s ++ suf.
Proof.
  unfold trimEnd.
  destruct (dropWhile_suffix isWhiteSpace (rev s)) as [pre H].
  exists (rev pre). rewrite <- rev_app_distr, <- H. now rewrite rev_involutive.
Qed.

Lemma trim_idempotent (s : jsstring) : trim (trim s) = trim s.
Proof.
  unfold trim at 2 3.
  destruct (trimEnd_cases (trimStart s)) as [E | (pre & c & E & Hc)].
  - rewrite E. reflexivity.
  - rewrite E. rewrite trim_snoc by exact Hc. f_equal.
    unfold trimStart. apply dropWhile_fixed.
    destruct (trimEnd_prefix (trimStart s)) as [suf Hs].
    rewrite E in Hs.
    pose proof (dropWhile_head isWhiteSpace s) as Hh.
    unfold trimStart in Hs. rewrite Hs in Hh.
    destruct pre as [|d pre]; simpl in *; [exact I | exact Hh].
Qed.

Section SliceFacts.

Variable A : Type.

Lemma slice0_firstn (k : Z) (l : list A) :
  exists n, slice0 k l = firstn n l.
Proof. unfold slice0. eauto. Qed.

Lemma slice0_In (k : Z) (l : list A) (x : A) :
  In x (slice0 k l) -> In x l.
Proof.
  destruct (slice0_firstn k l) as [n ->].
  revert l. induction n as [|n IH]; intros [|y l]; simpl; try tauto.
  intros [H | H]; [now left | right; now apply IH].
Qed.

Lemma slice0_length (k : Z) (l : list A) :
  (0 <= k)%Z -> (Z.of_nat (length (slice0 k l)) <= k)%Z.
Proof.
  intros Hk. unfold slice0.
  destruct (Z.ltb_spec k 0) as [Hlt | _]; [lia|].
  rewrite length_firstn. lia.
Qed.

Lemma slice0_nth_error (k : Z) (l : list A) (n : nat) (x : A) :
  nth_error (slice0 k l) n = Some x -> nth_error l n = Some x.
Proof.
  destruct (slice0_firstn k l) as [m ->].
  intros H.
  assert (Hn : n < length (firstn m l))
    by (apply nth_error_Some; congruence).
  rewrite length_firstn in Hn.
  rewrite nth_error_firstn in H.
  destruct (Nat.ltb_spec n m); [exact H | lia].
Qed.



End SliceFacts.

(** ** The regular expressions *)

Lemma matchMarker_split (s m rest : jsstring) :
  matchMarker s = Some (m, rest) ->
  s = m ++ rest /\ exists c m', m = c :: m'.
Proof.
  unfold matchMarker.
  pose proof (takeWhile_dropWhile isDigit s) as Hs.
  destruct (takeWhile isDigit s) as [|d ds]; [discriminate|].
  destruct (dropWhile isDigit s) as [|c r]; [discriminate|].
  destruct ((c =? DOT) || (c =? RPAREN))%N; [|discriminate].
  intros [= <- <-]. split; [|simpl; eauto].
  rewrite <- Hs. simpl. f_equal. rewrite <- app_assoc. simpl.
  now rewrite (takeWhile_dropWhile isWhiteSpace r).
Qed.

Lemma breakBeforeMarkers_skip (m rest : jsstring) :
  breakBeforeMarkers (length m) (m ++ rest) = m ++ breakBeforeMarkers 0 rest.
Proof. induction m as [|c m IH]; simpl; [reflexivity | now rewrite IH]. Qed.

(** The scan written with the match itself: at a marker, a line feed and the
    marker, and the scan goes on behind it. *)
Lemma normalise_unfold (s : jsstring) :
  Parser.normalise s =
  match s with
  | [] => []
  | c :: s' =>
      match matchMarker s with
      | Some (m, rest) => LF :: m ++ Parser.normalise rest
      | None => c :: Parser.normalise s'
      end
  end.
Proof.
  unfold Parser.normalise. destruct s as [|c s']; [reflexivity|].
  cbn [breakBeforeMarkers].
  destruct (matchMarker (c :: s')) as [[m rest]|] eqn:E; [|reflexivity].
  apply matchMarker_split in E. destruct E as [Hs (c' & m' & ->)].
  simpl in Hs. injection Hs as <- ->.
  simpl. rewrite Nat.sub_0_r. now rewrite breakBeforeMarkers_skip.
Qed.

(** Neither replacement removes a final question mark. *)
Lemma stripNumber_endsWith (s : jsstring) :
  endsWith QMARK s -> endsWith QMARK (stripNumber s).
Proof.
  intros [pre ->]. unfold stripNumber, matchMarker.
  rewrite (dropWhile_snoc isDigit pre QMARK) by reflexivity.
  destruct (takeWhile isDigit (pre ++ [QMARK])) as [|d ds];
    [now exists pre|].
  destruct (dropWhile isDigit pre) as [|c r]; simpl.
  - now exists pre.
  - destruct ((c =? DOT) || (c =? RPAREN))%N; [|now exists pre].
    rewrite (dropWhile_snoc isWhiteSpace r QMARK) by reflexivity.
    now eexists.
Qed.

Lemma stripBullet_endsWith (s : jsstring) :
  endsWith QMARK s -> endsWith QMARK (stripBullet s).
Proof.
  intros [pre ->]. unfold stripBullet.
  destruct pre as [|c r]; simpl.
  - now exists [].
  - destruct ((c =? HYPHEN) || (c =? STAR) || (c =? BULLET))%N.
    + rewrite (dropWhile_snoc isWhiteSpace r QMARK) by reflexivity.
      now eexists.
    + now exists (c :: r).
Qed.

Lemma trim_endsWith (s : jsstring) :
  endsWith QMARK s -> endsWith QMARK (trim s).
Proof.
  intros [pre ->]. rewrite trim_snoc by reflexivity. now eexists.
Qed.

(** ** The parser *)


Lemma survivors_spec (text q : jsstring) :
  In q (Parser.survivors text) ->
  exists seg, In seg (Parser.segments text) /\
              q = Parser.cleanSegment seg /\ Parser.keep q = true.
Proof.
  unfold Parser.survivors. rewrite filter_In, in_map_iff.
  intros [(seg & <- & Hseg) Hk]. eauto.
Qed.

Section Order.

Variable keep : jsstring -> bool.
Variable clean : jsstring -> jsstring.



End Order.

(** *** Worked inputs *)

Example bullet_stripped :
  Parser.parseQuestionsFromText (lit "- Why does this matter?") 10
  = [lit "Why does this matter?"].
Proof. reflexivity. Qed.

Example numbering_stripped :
  Parser.parseQuestionsFromText (lit "3) How should this be used?") 10
  = [lit "How should this be used?"].
Proof. reflexivity. Qed.

Example short_segment_dropped :
  Parser.parseQuestionsFromText (lit "Ok?") 10 = [].
Proof. reflexivity. Qed.

(** A text without a question mark is one candidate segment, and gets the
    question mark that every candidate gets. *)
Example prose_becomes_a_question :
  Parser.parseQuestionsFromText
    (lit "This document has no question marks at all.") 10
  = [lit "This document has no question marks at all.?"].
Proof. reflexivity. Qed.

(** The line-based copy of the parser keeps the one line whole, and keeps
    numbered lines that are no questions. *)
Example LineParser_one_line :
  LineParser.parseQuestionsFromText oneLine 10
  = [lit "What is X? 2. What is Y? 3. What is Z?"].
Proof. reflexivity. Qed.

Example LineParser_numbered_statement :
  LineParser.parseQuestionsFromText
    (lit "1. Explain the significance of the key point.") 10
  = [lit "Explain the significance of the key point."].
Proof. reflexivity. Qed.

Example LineParser_no_question_mark :
  LineParser.parseQuestionsFromText
    (lit "This document has no question marks at all.") 10 = [].
Proof. reflexivity. Qed.

(** *** The claims about the parser *)


(** C4: for every text and every maxQuestions = k >= 0, the list the parser
    returns has at most k elements (in both copies of the parser). *)
Theorem C4_bound_respected (text : jsstring) (k : Z) :
  (0 <= k)%Z ->
  (Z.of_nat (length (Parser.parseQuestionsFromText text k)) <= k)%Z
  /\ (Z.of_nat (length (LineParser.parseQuestionsFromText text k)) <= k)%Z.
Proof.
  intros Hk. split; now apply slice0_length.
Qed.

Lemma C4_bound_respected_witness :
  (Z.of_nat (length (Parser.parseQuestionsFromText oneLine 2)) <= 2)%Z
  /\ (Z.of_nat (length (LineParser.parseQuestionsFromText oneLine 2)) <= 2)%Z.
Proof. apply (C4_bound_respected oneLine 2). lia. Defined.



(** ** The question-generation tool *)

Section ToolFacts.

Variable parse : jsstring -> Z -> list jsstring.

Lemma tryBlock_throws (text : jsstring) (k : Z) (mastra : option mastra)
      (e : thrown) :
  generationFailure mastra (QuestionTool.prompt k text) e ->
  result (QuestionTool.tryBlock parse text k mastra) = Thrown e.
Proof.
  unfold QuestionTool.tryBlock, QuestionTool.drain.
  intros [-> | m -> Hg | m e' -> Hg | m a e' -> Hg Hs
          | m a s e' -> Hg Hs Hf]; run;
    rewrite ?Hg; simpl; rewrite ?Hs; simpl; rewrite ?Hf; reflexivity.
Qed.

Lemma tryBlock_thrown (text : jsstring) (k : Z) (mastra : option mastra)
      (e : thrown) :
  result (QuestionTool.tryBlock parse text k mastra) = Thrown e ->
  generationFailure mastra (QuestionTool.prompt k text) e.
Proof.
  unfold QuestionTool.tryBlock, QuestionTool.drain.
  destruct mastra as [m|]; run.
  - destruct (getAgent m (lit "textQuestionAgent")) as [[a|]|e'] eqn:Hg;
      simpl.
    + destruct (stream a (QuestionTool.prompt k text)) as [s|e'] eqn:Hs;
        simpl.
      * destruct (failure s) as [e'|] eqn:Hf; simpl; [|discriminate].
        intros [= <-]. eapply StreamBreaks; eauto.
      * intros [= <-]. eapply StreamThrows; eauto.
    + intros [= <-]. eapply NoAgent; eauto.
    + intros [= <-]. eapply LookupThrows; eauto.
  - intros [= <-]. now apply NoInstance.
Qed.

(** The tool returns on every path, and [failed] whenever its [try] block
    throws. *)
Lemma execute_returns (context : QuestionTool.context)
      (mastra : option mastra) :
  exists r, result (QuestionTool.execute parse context mastra) = Returned r.
Proof.
  unfold QuestionTool.execute.
  destruct (isEmpty _ || isEmpty _); [now eexists|].
  destruct (QuestionTool.tryBlock parse _ _ mastra) as [[r|e] t]; run;
    now eexists.
Qed.

Lemma execute_absorbs (context : QuestionTool.context)
      (mastra : option mastra) (k : Z) (e : thrown) :
  k = match QuestionTool.maxQuestions context with
      | Some n => n
      | None => 10%Z
      end ->
  result (QuestionTool.tryBlock parse (QuestionTool.extractedText context)
                                k mastra) = Thrown e ->
  result (QuestionTool.execute parse context mastra)
  = Returned QuestionTool.failed.
Proof.
  intros -> H. unfold QuestionTool.execute.
  destruct (isEmpty _ || isEmpty _); [reflexivity|].
  destruct (QuestionTool.tryBlock parse _ _ mastra) as [[r|e'] t]; run;
    [discriminate | reflexivity].
Qed.

(** The tool on a stream that is drained to the end. *)
Lemma execute_drained (context : QuestionTool.context) (m : Effects.mastra)
      (a : agent) (s : textStream) (k : Z) :
  k = match QuestionTool.maxQuestions context with
      | Some n => n
      | None => 10%Z
      end ->
  isEmpty (trim (QuestionTool.extractedText context)) = false ->
  getAgent m (lit "textQuestionAgent") = Returned (Some a) ->
  stream a (QuestionTool.prompt k (QuestionTool.extractedText context))
  = Returned s ->
  failure s = None ->
  QuestionTool.execute parse context (Some m)
  = (Returned (QuestionTool.fromGenerated
                 parse
                 (concat (map (fun chunk => orElse chunk []) (chunks s))) k),
     [Stream (QuestionTool.prompt k (QuestionTool.extractedText context))]).
Proof.
  intros -> Hne Hg Hs Hf. unfold QuestionTool.execute.
  assert (E : isEmpty (QuestionTool.extractedText context) = false).
  { destruct (QuestionTool.extractedText context); [discriminate Hne|].
    reflexivity. }
  rewrite E, Hne. simpl.
  unfold QuestionTool.tryBlock, QuestionTool.drain. run.
  rewrite Hg. simpl. rewrite Hs. simpl. rewrite Hf. reflexivity.
Qed.

(** Every call the tool makes is the one streamed request. *)
Lemma execute_calls (context : QuestionTool.context)
      (mastra : option mastra) :
  let k := match QuestionTool.maxQuestions context with
           | Some n => n
           | None => 10%Z
           end in
  calls (QuestionTool.execute parse context mastra) = []
  \/ calls (QuestionTool.execute parse context mastra)
     = [Stream (QuestionTool.prompt k (QuestionTool.extractedText context))].
Proof.
  intros k. unfold QuestionTool.execute. fold k.
  destruct (isEmpty _ || isEmpty _); [now left|].
  unfold QuestionTool.tryBlock, QuestionTool.drain.
  destruct mastra as [m|]; run; [|now left].
  destruct (getAgent m (lit "textQuestionAgent")) as [[a|]|e'];
    simpl; try now left.
  destruct (stream a _) as [s|e']; simpl; [|now right].
  destruct (failure s); simpl; now right.
Qed.

End ToolFacts.

(** *** The claims about the tool *)

(** C1, as the code has it: when the raw completion passes the length check
    (more than 20 code units after trimming) and the parser extracts no
    segment, the tool returns the empty question list with questionCount 0
    and success: true, having made the one streamed request; it does not
    throw. *)
Theorem C1_empty_parse_reports_success
        (parse : jsstring -> Z -> list jsstring)
        (context : QuestionTool.context) (m : Effects.mastra) (a : agent)
        (s : textStream) :
  let k := match QuestionTool.maxQuestions context with
           | Some n => n
           | None => 10%Z
           end in
  let request := QuestionTool.prompt k (QuestionTool.extractedText context) in
  let raw := concat (map (fun chunk => orElse chunk []) (chunks s)) in
  isEmpty (trim (QuestionTool.extractedText context)) = false ->
  getAgent m (lit "textQuestionAgent") = Returned (Some a) ->
  stream a request = Returned s ->
  failure s = None ->
  20 < length (trim raw) ->
  parse raw k = [] ->
  QuestionTool.execute parse context (Some m)
  = (Returned {| QuestionTool.questions := [];
                 QuestionTool.questionCount := 0;
                 QuestionTool.success := true |},
     [Stream request]).
Proof.
  intros k request raw Hne Hg Hs Hf Hlen Hp.
  rewrite (execute_drained parse context m a s k eq_refl Hne Hg Hs Hf).
  unfold QuestionTool.fromGenerated. fold raw.
  apply Nat.ltb_lt in Hlen. rewrite Hlen, Hp. reflexivity.
Qed.

Lemma C1_empty_parse_reports_success_witness :
  QuestionTool.execute
    Parser.parseQuestionsFromText someSummary
    (Some (mastraWith (lit "textQuestionAgent") (agentAnswering onlyMarkers)))
  = (Returned {| QuestionTool.questions := [];
                 QuestionTool.questionCount := 0;
                 QuestionTool.success := true |},
     [Stream (QuestionTool.prompt
                10 (QuestionTool.extractedText someSummary))]).
Proof.
  apply (C1_empty_parse_reports_success
           Parser.parseQuestionsFromText someSummary
           (mastraWith (lit "textQuestionAgent") (agentAnswering onlyMarkers))
           (agentAnswering onlyMarkers)
           {| chunks := [Some onlyMarkers]; failure := None |});
    try reflexivity.
  vm_compute. lia.
Defined.

(** C1, as the claim states it, fails: on a completion that passes the
    length check and from which the parser extracts nothing, the tool
    answers success: true, not success: false.  The line-based parser
    extracts nothing from the text without question marks; the normalising
    parser extracts nothing from a text of bare list markers. *)
Lemma C1_counterexample :
  (20 < length (trim noQuestionMarks)
   /\ LineParser.parseQuestionsFromText noQuestionMarks 10 = []
   /\ result (QuestionTool.execute
                LineParser.parseQuestionsFromText someSummary
                (Some (mastraWith (lit "textQuestionAgent")
                                  (agentAnswering noQuestionMarks))))
      = Returned {| QuestionTool.questions := [];
                    QuestionTool.questionCount := 0;
                    QuestionTool.success := true |}
   /\ result (QuestionTool.execute
                LineParser.parseQuestionsFromText someSummary
                (Some (mastraWith (lit "textQuestionAgent")
                                  (agentAnswering noQuestionMarks))))
      <> Returned QuestionTool.failed)
  /\
  (20 < length (trim onlyMarkers)
   /\ Parser.parseQuestionsFromText onlyMarkers 10 = []
   /\ result (QuestionTool.execute
                Parser.parseQuestionsFromText someSummary
                (Some (mastraWith (lit "textQuestionAgent")
                                  (agentAnswering onlyMarkers))))
      = Returned {| QuestionTool.questions := [];
                    QuestionTool.questionCount := 0;
                    QuestionTool.success := true |}
   /\ result (QuestionTool.execute
                Parser.parseQuestionsFromText someSummary
                (Some (mastraWith (lit "textQuestionAgent")
                                  (agentAnswering onlyMarkers))))
      <> Returned QuestionTool.failed).
Proof.
  split; (split; [vm_compute; lia|]); (split; [reflexivity|]);
    (split; [reflexivity|]); vm_compute; discriminate.
Qed.

(** C9: on every return path of the tool, questionCount is the length of
    the questions array; and the tool returns on every path. *)
Theorem C9_count_is_length (parse : jsstring -> Z -> list jsstring)
        (context : QuestionTool.context) (mastra : option mastra) :
  exists r,
    result (QuestionTool.execute parse context mastra) = Returned r
    /\ QuestionTool.questionCount r
       = Z.of_nat (length (QuestionTool.questions r)).
Proof.
  unfold QuestionTool.execute.
  destruct (isEmpty _ || isEmpty _); [now exists QuestionTool.failed|].
  unfold QuestionTool.tryBlock, QuestionTool.drain, QuestionTool.fromGenerated.
  destruct mastra as [m|]; run; [|now exists QuestionTool.failed].
  destruct (getAgent m (lit "textQuestionAgent")) as [[a|]|e]; simpl;
    try now exists QuestionTool.failed.
  destruct (stream a _) as [s|e]; simpl; [|now exists QuestionTool.failed].
  destruct (failure s); simpl; [now exists QuestionTool.failed|].
  destruct (20 <? _); eexists; split; reflexivity.
Qed.

(** C5: whatever the input text, every request the tool sends to the
    completion service is the one user message whose content is the fixed
    prompt head followed by the first 4000 code units of the text; the
    embedded part is never longer than 4000; and two inputs that agree on
    their first 4000 code units (and on being blank or not) give the same
    run: the same requests and the same result, so nothing behind the
    4000th code unit reaches the service. *)
Theorem C5_prompt_embeds_prefix (parse : jsstring -> Z -> list jsstring)
        (context : QuestionTool.context) (mastra : option mastra) :
  let k := match QuestionTool.maxQuestions context with
           | Some n => n
           | None => 10%Z
           end in
  let text := QuestionTool.extractedText context in
  let request :=
    [ {| role := lit "user";
         content := QuestionTool.promptHead k ++ firstn 4000 text |} ] in
  (forall ev, In ev (calls (QuestionTool.execute parse context mastra)) ->
              ev = Stream request)
  /\ length (calls (QuestionTool.execute parse context mastra)) <= 1
  /\ length (firstn 4000 text) <= 4000
  /\ (forall text',
         firstn 4000 text' = firstn 4000 text ->
         isEmpty (trim text') = isEmpty (trim text) ->
         QuestionTool.execute
           parse
           {| QuestionTool.extractedText := text';
              QuestionTool.maxQuestions := QuestionTool.maxQuestions context |}
           mastra
         = QuestionTool.execute parse context mastra).
Proof.
  intros k text request.
  assert (Hcalls := execute_calls parse context mastra).
  cbv zeta in Hcalls. fold k text in Hcalls.
  change (QuestionTool.prompt k text) with request in Hcalls.
  split; [|split; [|split]].
  - intros ev Hin. destruct Hcalls as [E | E]; rewrite E in Hin.
    + destruct Hin.
    + destruct Hin as [<- | []]. reflexivity.
  - destruct Hcalls as [-> | ->]; simpl; lia.
  - rewrite length_firstn. lia.
  - intros text' Hpre Hblank. unfold QuestionTool.execute. simpl.
    fold k text.
    assert (E : isEmpty text' = isEmpty text).
    { destruct text', text; simpl in *; congruence. }
    rewrite E, Hblank.
    destruct (isEmpty text || isEmpty (trim text)); [reflexivity|].
    unfold QuestionTool.tryBlock, QuestionTool.prompt, substring0,
      QuestionTool.MAX_TEXT_LENGTH.
    now rewrite Hpre.
Qed.

Lemma C5_prompt_embeds_prefix_witness :
  QuestionTool.execute
    Parser.parseQuestionsFromText
    {| QuestionTool.extractedText := longText 98%N;
       QuestionTool.maxQuestions := Some 5%Z |}
    (Some (mastraWith (lit "textQuestionAgent") (agentAnswering oneLine)))
  = QuestionTool.execute
      Parser.parseQuestionsFromText
      {| QuestionTool.extractedText := longText 99%N;
         QuestionTool.maxQuestions := Some 5%Z |}
      (Some (mastraWith (lit "textQuestionAgent") (agentAnswering oneLine))).
Proof.
  apply (C5_prompt_embeds_prefix
           Parser.parseQuestionsFromText
           {| QuestionTool.extractedText := longText 99%N;
              QuestionTool.maxQuestions := Some 5%Z |}
           (Some (mastraWith (lit "textQuestionAgent")
                             (agentAnswering oneLine)))).
  - vm_compute. reflexivity.
  - vm_compute. reflexivity.
Defined.

(** C7: every exception of the question-generation stage is absorbed.  The
    step returns on every run.  When the [try] block of the tool throws (no
    [mastra] instance, no agent, a lookup that throws, a completion call
    that throws, a stream that breaks), the tool returns questions: [],
    questionCount: 0, success: false and the step returns questions: [],
    success: false.  And whatever the tool does, also when its [execute]
    itself throws, the step returns, with questions: [], success: false
    after a throw. *)
Theorem C7_generation_errors_absorbed
        (parse : jsstring -> Z -> list jsstring) (mastra : option mastra)
        (inputData : Workflow.pdfSummary) :
  let context := {| QuestionTool.extractedText := Workflow.summary inputData;
                    QuestionTool.maxQuestions := None |} in
  (exists r, result (Workflow.step parse mastra inputData) = Returned r)
  /\ (forall e,
         generationFailure
           mastra (QuestionTool.prompt 10 (Workflow.summary inputData)) e ->
         result (QuestionTool.execute parse context mastra)
         = Returned QuestionTool.failed
         /\ result (Workflow.step parse mastra inputData)
            = Returned Workflow.failed)
  /\ (forall toolExecute : QuestionTool.context -> M QuestionTool.toolResult,
         (exists r,
             result (Workflow.generateQuestionsFromSummaryStep
                       toolExecute inputData) = Returned r)
         /\ (forall e,
                result (toolExecute context) = Thrown e ->
                result (Workflow.generateQuestionsFromSummaryStep
                          toolExecute inputData)
                = Returned Workflow.failed)).
Proof.
  intros context.
  assert (Hany : forall toolExecute,
             (exists r,
                 result (Workflow.generateQuestionsFromSummaryStep
                           toolExecute inputData) = Returned r)
             /\ (forall e,
                    result (toolExecute context) = Thrown e ->
                    result (Workflow.generateQuestionsFromSummaryStep
                              toolExecute inputData)
                    = Returned Workflow.failed)).
  { intros toolExecute. unfold Workflow.generateQuestionsFromSummaryStep.
    fold context.
    destruct (isEmpty (Workflow.summary inputData)).
    - split; [now eexists | reflexivity].
    - destruct (toolExecute context) as [[r|e'] t]; run.
      + split; [now eexists | discriminate].
      + split; [now eexists | reflexivity]. }
  split; [apply Hany|]. split; [|exact Hany].
  intros e He.
  assert (Htool : result (QuestionTool.execute parse context mastra)
                  = Returned QuestionTool.failed).
  { apply execute_absorbs with (k := 10%Z) (e := e); [reflexivity|].
    now apply tryBlock_throws. }
  split; [exact Htool|].
  unfold Workflow.step, Workflow.generateQuestionsFromSummaryStep.
  fold context.
  destruct (isEmpty (Workflow.summary inputData)); [reflexivity|].
  destruct (QuestionTool.execute parse context mastra) as [[r|e'] t]; run.
  - injection Htool as ->. reflexivity.
  - reflexivity.
Qed.

Lemma C7_generation_errors_absorbed_witness :
  result (QuestionTool.execute
            Parser.parseQuestionsFromText
            {| QuestionTool.extractedText := Workflow.summary aSummary;
               QuestionTool.maxQuestions := None |}
            (Some (mastraWith (lit "textQuestionAgent") agentFailing)))
  = Returned QuestionTool.failed
  /\ result (Workflow.step
               Parser.parseQuestionsFromText
               (Some (mastraWith (lit "textQuestionAgent") agentFailing))
               aSummary)
     = Returned Workflow.failed.
Proof.
  apply (C7_generation_errors_absorbed
           Parser.parseQuestionsFromText
           (Some (mastraWith (lit "textQuestionAgent") agentFailing))
           aSummary)
    with (e := ErrorObject (lit "maximum context length exceeded")).
  apply StreamThrows
    with (m := mastraWith (lit "textQuestionAgent") agentFailing)
         (a := agentFailing); reflexivity.
Defined.

(** ** The text extractor *)

Lemma trim_blank (s : jsstring) :
  forallb isWhiteSpace s = true -> trim s = [].
Proof.
  intros H. unfold trim, trimStart.
  assert (E : dropWhile isWhiteSpace s = []).
  { induction s as [|c s IH]; simpl in *; [reflexivity|].
    apply andb_prop in H. destruct H as [-> H]. now apply IH. }
  now rewrite E.
Qed.

Section ExtractorFacts.

Variable parseBuffer : Buffer -> Extractor.parserEvent.
Variable decodeURIComponent : jsstring -> outcome jsstring.

Local Abbreviation appendRun := (Extractor.appendRun decodeURIComponent).
Local Abbreviation appendItem := (Extractor.appendItem decodeURIComponent).
Local Abbreviation appendPage := (Extractor.appendPage decodeURIComponent).
Local Abbreviation extract :=
  (Extractor.extractTextFromPDF parseBuffer decodeURIComponent).

Lemma runs_without_text (runs : list Extractor.textRun) (acc : jsstring) :
  forallb (fun run => negb (truthy (Extractor.T run))) runs = true ->
  foldM appendRun runs acc = ret acc.
Proof.
  induction runs as [|r runs IH]; simpl; [reflexivity|].
  intros H. apply andb_prop in H. destruct H as [Hr H].
  unfold Extractor.appendRun at 1.
  apply negb_true_iff in Hr. rewrite Hr. run. rewrite (IH H). reflexivity.
Qed.

Lemma items_without_text (items : list Extractor.textItem)
      (acc : jsstring) :
  forallb (fun run => negb (truthy (Extractor.T run)))
          (flat_map runsOfItem items) = true ->
  foldM appendItem items acc = ret acc.
Proof.
  induction items as [|i items IH]; simpl; [reflexivity|].
  rewrite forallb_app. intros H. apply andb_prop in H.
  destruct H as [Hi H].
  unfold Extractor.appendItem at 1.
  unfold runsOfItem in Hi.
  destruct (Extractor.R i) as [runs|].
  - rewrite (runs_without_text runs acc Hi). run.
    rewrite (IH H). reflexivity.
  - run. rewrite (IH H). reflexivity.
Qed.

Lemma pages_without_text (pages : list Extractor.page) (acc : jsstring) :
  forallb (fun run => negb (truthy (Extractor.T run)))
          (flat_map runsOfPage pages) = true ->
  foldM appendPage pages acc = ret (acc ++ repeat LF (2 * length pages)).
Proof.
  revert acc. induction pages as [|p pages IH]; intros acc; simpl.
  - intros _. now rewrite app_nil_r.
  - rewrite forallb_app. intros H. apply andb_prop in H.
    destruct H as [Hp H].
    unfold Extractor.appendPage at 1.
    unfold runsOfPage in Hp.
    assert (E : match Extractor.Texts p with
                | Some items =>
                    foldM (Extractor.appendItem decodeURIComponent) items acc
                | None => ret acc
                end = ret acc).
    { destruct (Extractor.Texts p) as [items|]; [|reflexivity].
      now apply items_without_text. }
    rewrite E. run. rewrite (IH (acc ++ [LF; LF]) H). run.
    rewrite <- app_assoc. simpl.
    replace (length pages + S (length pages + 0))
      with (S (2 * length pages)) by lia.
    reflexivity.
Qed.

(** A document without text is collected into page breaks only. *)
Lemma collect_without_text (pdfData : option Extractor.pdfData) :
  withoutText pdfData = true ->
  exists text n,
    Extractor.collect decodeURIComponent pdfData = (Returned (text, n), [])
    /\ trim text = [].
Proof.
  unfold withoutText, runsOf, Extractor.collect.
  destruct pdfData as [[[pages|]]|]; intros H;
    try (exists [], 0%Z; now split).
  rewrite (pages_without_text pages [] H). run.
  do 2 eexists. split; [reflexivity|].
  apply trim_blank. clear H.
  induction (length pages + (length pages + 0)) as [|n IH];
    simpl; [reflexivity | exact IH].
Qed.

Lemma collect_pageCount (pdfData : option Extractor.pdfData)
      (text : jsstring) (n : Z) (t : list event) :
  Extractor.collect decodeURIComponent pdfData = (Returned (text, n), t) ->
  (0 <= n)%Z.
Proof.
  unfold Extractor.collect.
  destruct pdfData as [[[pages|]]|]; run; try (intros [= <- <-]; lia).
  destruct (foldM (Extractor.appendPage decodeURIComponent) pages [])
    as [[s|e] t']; simpl; [|discriminate].
  intros [= <- <-]. lia.
Qed.

(** When the collected text is blank, the promise is rejected with the
    "no text" error. *)
Lemma extract_no_text (b : Byte.byte) (bs : Buffer)
      (pdfData : option Extractor.pdfData) (text : jsstring) (n : Z)
      (t : list event) :
  parseBuffer (b :: bs) = Extractor.DataReady pdfData ->
  Extractor.collect decodeURIComponent pdfData = (Returned (text, n), t) ->
  trim text = [] ->
  result (extract (Some (b :: bs)))
  = Thrown (ErrorObject Extractor.noText).
Proof.
  intros Hp Hc Ht. unfold Extractor.extractTextFromPDF. run.
  rewrite Hp. unfold Extractor.onDataReady. rewrite Hc, Ht. reflexivity.
Qed.

(** What a successful extraction returns. *)
Lemma extract_success (pdfBuffer : option Buffer)
      (r : Extractor.extraction) :
  result (extract pdfBuffer) = Returned r ->
  trim (Extractor.extractedText r) = Extractor.extractedText r
  /\ isEmpty (Extractor.extractedText r) = false
  /\ (0 <= Extractor.pagesCount r)%Z.
Proof.
  unfold Extractor.extractTextFromPDF.
  destruct pdfBuffer as [[|b bs]|]; run; try discriminate.
  destruct (parseBuffer (b :: bs)) as [pdfData|error]; run;
    [|discriminate].
  unfold Extractor.onDataReady.
  destruct (Extractor.collect decodeURIComponent pdfData)
    as [[[text n]|e] t] eqn:Hc; simpl; [|discriminate].
  destruct (isEmpty (trim text)) eqn:He; simpl; [discriminate|].
  intros [= <-]. simpl. split; [apply trim_idempotent|].
  split; [exact He|]. now apply collect_pageCount in Hc.
Qed.

End ExtractorFacts.

(** *** The claim about the extractor *)

(** C6: given a missing or empty buffer the extractor fails with the "empty
    buffer" error and makes no call to the parser; when the parsed document
    has no text (no run with a non-empty T, or more generally a collected
    text that is blank) it fails with the "no text could be extracted"
    error, which is another message; and whenever it succeeds the returned
    text is trimmed and not empty and the page count is at least 0. *)
Theorem C6_extraction_contract
        (parseBuffer : Buffer -> Extractor.parserEvent)
        (decodeURIComponent : jsstring -> outcome jsstring) :
  let extract :=
    Extractor.extractTextFromPDF parseBuffer decodeURIComponent in
  (forall pdfBuffer,
      pdfBuffer = None \/ pdfBuffer = Some [] ->
      extract pdfBuffer = (Thrown (ErrorObject Extractor.emptyBuffer), []))
  /\ (forall b bs pdfData,
         parseBuffer (b :: bs) = Extractor.DataReady pdfData ->
         withoutText pdfData = true ->
         result (extract (Some (b :: bs)))
         = Thrown (ErrorObject Extractor.noText))
  /\ (forall b bs pdfData text n t,
         parseBuffer (b :: bs) = Extractor.DataReady pdfData ->
         Extractor.collect decodeURIComponent pdfData
         = (Returned (text, n), t) ->
         trim text = [] ->
         result (extract (Some (b :: bs)))
         = Thrown (ErrorObject Extractor.noText))
  /\ Extractor.noText <> Extractor.emptyBuffer
  /\ (forall pdfBuffer r,
         result (extract pdfBuffer) = Returned r ->
         trim (Extractor.extractedText r) = Extractor.extractedText r
         /\ Extractor.extractedText r <> []
         /\ (0 <= Extractor.pagesCount r)%Z).
Proof.
  intros extract. subst extract.
  split; [|split; [|split; [|split]]].
  - intros pdfBuffer [-> | ->]; reflexivity.
  - intros b bs pdfData Hp Hw.
    destruct (collect_without_text decodeURIComponent pdfData Hw)
      as (text & n & Hc & Ht).
    now apply extract_no_text with pdfData text n [].
  - intros b bs pdfData text n t Hp Hc Ht.
    now apply extract_no_text with pdfData text n t.
  - discriminate.
  - intros pdfBuffer r Hr.
    destruct (extract_success parseBuffer decodeURIComponent pdfBuffer r Hr)
      as (Ht & He & Hn).
    split; [exact Ht|]. split; [|exact Hn].
    intros E. rewrite E in He. discriminate.
Qed.

Lemma C6_extraction_contract_witness :
  Extractor.extractTextFromPDF parserStub decodePlain (Some [])
  = (Thrown (ErrorObject Extractor.emptyBuffer), [])
  /\ result (Extractor.extractTextFromPDF parserStub decodePlain
                                          (Some [Byte.x00]))
     = Thrown (ErrorObject Extractor.noText)
  /\ (trim (lit "Hello world") = lit "Hello world"
      /\ lit "Hello world" <> []
      /\ (0 <= 1)%Z).
Proof.
  destruct (C6_extraction_contract parserStub decodePlain)
    as (Hempty & Hnone & _ & _ & Hok).
  split; [|split].
  - apply Hempty. right. reflexivity.
  - apply Hnone with (pdfData := blankDocument); reflexivity.
  - apply (Hok (Some pdfBytes)
               {| Extractor.extractedText := lit "Hello world";
                  Extractor.pagesCount := 1 |}).
    reflexivity.
Defined.

(** ** The download-and-summarize tool *)

(** C10: when the download and the extraction succeed and the summarization
    call completes with an empty or missing text, the tool does not fail: it
    returns the summary 'Summary could not be generated' together with the
    size of the downloaded file, the page count of the extraction and the
    length of the extracted text. *)
Theorem C10_placeholder_summary
        (fetch : jsstring -> outcome Fetcher.response)
        (parseBuffer : Buffer -> Extractor.parserEvent)
        (decodeURIComponent : jsstring -> outcome jsstring)
        (pdfUrl : jsstring) (m : Effects.mastra)
        (response : Fetcher.response) (pdfBuffer : Buffer)
        (extractionResult : Extractor.extraction) (a : agent)
        (summaryResult : generation) :
  fetch pdfUrl = Returned response ->
  Fetcher.ok response = true ->
  Fetcher.arrayBuffer response = Returned pdfBuffer ->
  result (Extractor.extractTextFromPDF parseBuffer decodeURIComponent
                                       (Some pdfBuffer))
  = Returned extractionResult ->
  getAgent m (lit "pdfSummarizationAgent") = Returned (Some a) ->
  generate a (Fetcher.summaryPrompt
                (Extractor.extractedText extractionResult))
  = Returned summaryResult ->
  truthy (text summaryResult) = false ->
  result (Fetcher.execute fetch parseBuffer decodeURIComponent pdfUrl (Some m))
  = Returned
      {| Workflow.summary := lit "Summary could not be generated";
         Workflow.fileSize := Z.of_nat (length pdfBuffer);
         Workflow.pagesCount := Extractor.pagesCount extractionResult;
         Workflow.characterCount :=
           Z.of_nat (length (Extractor.extractedText extractionResult)) |}.
Proof.
  intros Hf Hok Hb He Hg Hs Ht.
  destruct (extract_success parseBuffer decodeURIComponent
                            (Some pdfBuffer) extractionResult He)
    as (Htrim & Hne & _).
  destruct (Extractor.extractTextFromPDF parseBuffer decodeURIComponent
                                         (Some pdfBuffer)) as [o t] eqn:E.
  unfold result in He. simpl in He. subst o.
  unfold Fetcher.execute, Fetcher.tryBlock.
  unfold result, bind, catch, ret, throw, lift, emit, getAgentOpt.
  rewrite Hf. cbn -[Extractor.extractTextFromPDF].
  rewrite Hok. cbn -[Extractor.extractTextFromPDF].
  rewrite Hb, E. cbn -[Extractor.extractTextFromPDF].
  rewrite Htrim, Hne. simpl. rewrite Hg. simpl. rewrite Hs. simpl.
  unfold orElse, truthy in *.
  destruct (text summaryResult) as [[|c s]|]; try discriminate; reflexivity.
Qed.

Lemma C10_placeholder_summary_witness :
  result (Fetcher.execute fetchStub parserStub decodePlain
                          (lit "https://example.com/document.pdf")
                          (Some (mastraWith (lit "pdfSummarizationAgent")
                                            agentSilent)))
  = Returned
      {| Workflow.summary := lit "Summary could not be generated";
         Workflow.fileSize := 4;
         Workflow.pagesCount := 1;
         Workflow.characterCount := 11 |}.
Proof.
  apply (C10_placeholder_summary
           fetchStub parserStub decodePlain
           (lit "https://example.com/document.pdf")
           (mastraWith (lit "pdfSummarizationAgent") agentSilent)
           {| Fetcher.ok := true;
              Fetcher.status := 200;
              Fetcher.statusText := lit "OK";
              Fetcher.arrayBuffer := Returned pdfBytes |}
           pdfBytes
           {| Extractor.extractedText := lit "Hello world";
              Extractor.pagesCount := 1 |}
           agentSilent
           {| text := None |});
    reflexivity.
Defined.

(* ===================================================================== *)
(** * Further properties of the code *)
(* ===================================================================== *)

(** ** Splitting and contiguous parts *)

Lemma infix_refl (s : jsstring) : infix s s.
Proof. exists [], []. now rewrite app_nil_r. Qed.

Lemma infix_trans (x y z : jsstring) : infix x y -> infix y z -> infix x z.
Proof.
  intros (a & b & ->) (c & d & ->). exists (c ++ a), (b ++ d).
  now rewrite !app_assoc.
Qed.

Lemma infix_cons (x s : jsstring) (c : code_unit) :
  infix x s -> infix x (c :: s).
Proof. intros (a & b & ->). now exists (c :: a), b. Qed.

Lemma infix_suffix (pre x : jsstring) : infix x (pre ++ x).
Proof. exists pre, []. now rewrite app_nil_r. Qed.

Lemma infix_prefix (x suf : jsstring) : infix x (x ++ suf).
Proof. now exists [], suf. Qed.

Lemma infix_includes (c : code_unit) (x s : jsstring) :
  infix x s -> includes c s = false -> includes c x = false.
Proof.
  intros (a & b & ->). unfold includes. rewrite !existsb_app.
  intros H. apply orb_false_iff in H. destruct H as [_ H].
  apply orb_false_iff in H. tauto.
Qed.

Lemma trim_infix (s : jsstring) : infix (trim s) s.
Proof.
  unfold trim.
  destruct (trimEnd_prefix (trimStart s)) as [suf Hs].
  destruct (dropWhile_suffix isWhiteSpace s) as [pre Hp].
  exists pre, suf. fold (trimStart s) in Hp. now rewrite <- Hs.
Qed.

(** The pieces of [split]: the first is a prefix, all are contiguous parts,
    none holds the separator. *)
Lemma split_pieces (sep : code_unit) (s : jsstring) :
  exists y ys,
    split sep s = y :: ys
    /\ (exists suf, s = y ++ suf)
    /\ (forall x, In x (y :: ys) -> infix x s /\ includes sep x = false).
Proof.
  induction s as [|c s (y & ys & E & (suf & Hy) & IH)]; simpl.
  - exists [], []. split; [reflexivity|]. split; [now exists []|].
    intros x [<- | []]. split; [apply infix_refl | reflexivity].
  - destruct (N.eqb_spec c sep) as [-> | Hc].
    + exists [], (split sep s). split; [reflexivity|].
      split; [now exists (sep :: s)|].
      intros x [<- | Hx].
      * split; [now exists [], (sep :: s) | reflexivity].
      * rewrite E in Hx. destruct (IH x Hx) as [Hi Hn].
        split; [now apply infix_cons | exact Hn].
    + rewrite E. exists (c :: y), ys. split; [reflexivity|].
      split; [exists suf; simpl; now rewrite <- Hy|].
      intros x [<- | Hx].
      * split.
        -- exists [], suf. simpl. now rewrite <- Hy.
        -- destruct (IH y (or_introl eq_refl)) as [_ Hn].
           unfold includes in *. simpl. rewrite Hn.
           destruct (N.eqb_spec sep c); [congruence | reflexivity].
      * destruct (IH x (or_intror Hx)) as [Hi Hn].
        split; [now apply infix_cons | exact Hn].
Qed.

Lemma split_In (sep : code_unit) (s x : jsstring) :
  In x (split sep s) -> infix x s /\ includes sep x = false.
Proof.
  destruct (split_pieces sep s) as (y & ys & E & _ & H).
  rewrite E. apply H.
Qed.

(** ** The normalisation only inserts line feeds *)

Lemma breakBeforeMarkers_inserts (skip : nat) (s : jsstring) :
  lineFeedsInserted (breakBeforeMarkers skip s) s.
Proof.
  revert skip. induction s as [|c s IH]; intros skip; simpl.
  - constructor.
  - destruct skip as [|n].
    + destruct (matchMarker (c :: s)) as [[m rest]|];
        repeat constructor; apply IH.
    + constructor. apply IH.
Qed.

Lemma inserted_prefix (out s p suf : jsstring) :
  lineFeedsInserted out s -> out = p ++ suf -> includes LF p = false ->
  exists suf', s = p ++ suf'.
Proof.
  intros H. revert p suf. induction H as [|c out s H IH|out s H IH];
    intros p suf E Hp.
  - destruct p; [now exists [] | discriminate].
  - destruct p as [|d p]; [now eexists|].
    simpl in E. injection E as <- E. unfold includes in Hp. simpl in Hp.
    apply orb_false_iff in Hp. destruct Hp as [_ Hp].
    destruct (IH p suf E Hp) as [suf' ->]. now exists suf'.
  - destruct p as [|d p]; [now eexists|].
    simpl in E. injection E as <- E. unfold includes in Hp. simpl in Hp.
    discriminate.
Qed.

Lemma inserted_infix (out s x : jsstring) :
  lineFeedsInserted out s -> infix x out -> includes LF x = false ->
  infix x s.
Proof.
  intros H. revert x. induction H as [|c out s H IH|out s H IH];
    intros x (pre & suf & E) Hx.
  - destruct pre; [|discriminate]. destruct x; [|discriminate].
    apply infix_refl.
  - destruct pre as [|d pre]; simpl in E.
    + destruct (inserted_prefix _ _ _ _ (LfCopy c _ _ H) E Hx) as [suf' ->].
      apply infix_prefix.
    + injection E as <- E. apply infix_cons, IH; [|exact Hx].
      now exists pre, suf.
  - destruct pre as [|d pre]; simpl in E.
    + destruct (inserted_prefix _ _ _ _ (LfInsert _ _ H) E Hx) as [suf' ->].
      apply infix_prefix.
    + injection E as <- E. apply IH; [|exact Hx]. now exists pre, suf.
Qed.

Lemma inserted_filter (out s : jsstring) :
  lineFeedsInserted out s ->
  filter (fun c => negb (c =? LF)%N) out
  = filter (fun c => negb (c =? LF)%N) s.
Proof.
  induction 1 as [|c out s H IH|out s H IH]; simpl.
  - reflexivity.
  - now rewrite IH.
  - exact IH.
Qed.

Lemma matchMarker_digit (c : code_unit) (s : jsstring) :
  isDigit c = false -> matchMarker (c :: s) = None.
Proof. intros H. unfold matchMarker. simpl. now rewrite H. Qed.

Lemma normalise_digit_free (text : jsstring) :
  forallb (fun c => negb (isDigit c)) text = true ->
  Parser.normalise text = text.
Proof.
  induction text as [|c s IH]; [reflexivity|].
  simpl. intros H. apply andb_prop in H. destruct H as [Hc H].
  apply negb_true_iff in Hc.
  rewrite normalise_unfold, (matchMarker_digit c s Hc). now rewrite (IH H).
Qed.

(** X1: the normalisation only inserts line feeds: without its line feeds the
    normalised text is the raw text without its line feeds, it is at least
    as long as the raw text and at most twice as long, and a text without
    digits is left as it is. *)
Theorem X1_normalise_inserts_line_feeds (text : jsstring) :
  filter (fun c => negb (c =? LF)%N) (Parser.normalise text)
  = filter (fun c => negb (c =? LF)%N) text
  /\ length text <= length (Parser.normalise text) <= 2 * length text
  /\ (forallb (fun c => negb (isDigit c)) text = true ->
      Parser.normalise text = text).
Proof.
  split; [apply inserted_filter, breakBeforeMarkers_inserts|]. split.
  - unfold Parser.normalise. generalize 0 at 1 2.
    induction text as [|c s IH]; intros skip; simpl; [lia|].
    destruct skip as [|n].
    + destruct (matchMarker (c :: s)) as [[m rest]|]; simpl.
      * specialize (IH (length m - 1)). lia.
      * specialize (IH 0). lia.
    + specialize (IH n). simpl. lia.
  - apply normalise_digit_free.
Qed.

Lemma X1_normalise_inserts_line_feeds_witness :
  Parser.normalise (lit "Why does this matter?")
  = lit "Why does this matter?".
Proof.
  apply (X1_normalise_inserts_line_feeds (lit "Why does this matter?")).
  reflexivity.
Defined.

(** ** Where a returned question comes from *)

Lemma stripNumber_suffix (s : jsstring) : exists pre, s = pre ++ stripNumber s.
Proof.
  unfold stripNumber. destruct (matchMarker s) as [[m rest]|] eqn:E.
  - apply matchMarker_split in E. destruct E as [-> _]. now exists m.
  - now exists [].
Qed.

Lemma stripBullet_suffix (s : jsstring) : exists pre, s = pre ++ stripBullet s.
Proof.
  unfold stripBullet. destruct s as [|c r]; [now exists []|].
  destruct ((c =? HYPHEN) || (c =? STAR) || (c =? BULLET))%N.
  - destruct (dropWhile_suffix isWhiteSpace r) as [pre Hp].
    exists (c :: pre). simpl. now rewrite <- Hp.
  - now exists [].
Qed.

Lemma clean_infix (s : jsstring) :
  infix (trim (stripBullet (stripNumber s))) s.
Proof.
  destruct (stripNumber_suffix s) as [p1 H1].
  destruct (stripBullet_suffix (stripNumber s)) as [p2 H2].
  apply infix_trans with (stripBullet (stripNumber s)); [apply trim_infix|].
  apply infix_trans with (stripNumber s).
  - rewrite H2 at 2. apply infix_suffix.
  - rewrite H1 at 2. apply infix_suffix.
Qed.

Lemma infix_snoc (x p : jsstring) (c : code_unit) :
  infix (x ++ [c]) (p ++ [c]) -> includes c p = false -> infix x p.
Proof.
  intros (pre & suf & E) Hp.
  destruct suf as [|d suf'] using rev_ind.
  - rewrite app_nil_r, app_assoc in E. apply app_inj_tail in E.
    destruct E as [-> _]. apply infix_suffix.
  - clear IHsuf'. rewrite !app_assoc in E. apply app_inj_tail in E.
    destruct E as [-> _]. unfold includes in Hp.
    rewrite !existsb_app in Hp. simpl in Hp. rewrite N.eqb_refl in Hp.
    rewrite !orb_true_r in Hp. simpl in Hp.
    rewrite ?orb_true_r in Hp. discriminate.
Qed.

(** The candidate segments: a trimmed, non-empty piece of a line of the
    normalised text, without question mark or line feed, and a question
    mark. *)
Lemma segments_origin (text seg : jsstring) :
  In seg (Parser.segments text) ->
  exists part,
    seg = part ++ [QMARK]
    /\ infix part text
    /\ includes QMARK part = false
    /\ includes LF part = false.
Proof.
  unfold Parser.segments. rewrite in_flat_map.
  intros (line & Hline & H). unfold Parser.lineSegments in H.
  apply in_map_iff in H. destruct H as (part & <- & H).
  apply filter_In in H. destruct H as [H _].
  apply in_map_iff in H. destruct H as (piece & <- & Hpiece).
  apply split_In in Hpiece. destruct Hpiece as [Hpi Hpq].
  apply split_In in Hline. destruct Hline as [Hli Hll].
  assert (Hin : infix (trim piece) line)
    by (eapply infix_trans; [apply trim_infix | exact Hpi]).
  exists (trim piece). split; [reflexivity|].
  assert (Hlf : includes LF (trim piece) = false)
    by (eapply infix_includes; eauto).
  split; [|split].
  - apply inserted_infix with (Parser.normalise text).
    + apply breakBeforeMarkers_inserts.
    + eapply infix_trans; eauto.
    + exact Hlf.
  - eapply infix_includes; [apply trim_infix | exact Hpq].
  - exact Hlf.
Qed.

(** X2: every question the normalising parser returns is a contiguous part
    of the raw completion followed by one question mark: the part holds no
    question mark and no line feed, so the only text the parser adds is the
    final '?'. *)
Theorem X2_question_origin (text : jsstring) (k : Z) (q : jsstring) :
  In q (Parser.parseQuestionsFromText text k) ->
  exists x,
    q = x ++ [QMARK]
    /\ infix x text
    /\ includes QMARK x = false
    /\ includes LF x = false.
Proof.
  intros H. apply slice0_In in H. apply survivors_spec in H.
  destruct H as (seg & Hseg & -> & _).
  apply segments_origin in Hseg.
  destruct Hseg as (part & -> & Hi & Hq & Hl).
  assert (He : endsWith QMARK (Parser.cleanSegment (part ++ [QMARK]))).
  { unfold Parser.cleanSegment.
    apply trim_endsWith, stripBullet_endsWith, stripNumber_endsWith.
    now exists part. }
  destruct He as [x Hx]. exists x. split; [exact Hx|].
  assert (Hxp : infix x part).
  { apply infix_snoc with QMARK; [|exact Hq].
    rewrite <- Hx. apply clean_infix. }
  split; [eapply infix_trans; eauto|].
  split; eapply infix_includes; eauto.
Qed.

Lemma X2_question_origin_witness :
  exists x,
    lit "What is Y?" = x ++ [QMARK]
    /\ infix x oneLine
    /\ includes QMARK x = false
    /\ includes LF x = false.
Proof.
  apply (X2_question_origin oneLine 10 (lit "What is Y?")).
  right; left; reflexivity.
Defined.

(** X3: every element the line-based parser returns is a contiguous part of
    the raw completion, taken as it stands (nothing is added): it holds no
    line feed, it is trimmed, and it is longer than 5 code units. *)
Theorem X3_line_origin (text : jsstring) (k : Z) (q : jsstring) :
  In q (LineParser.parseQuestionsFromText text k) ->
  infix q text
  /\ includes LF q = false
  /\ trim q = q
  /\ 5 < length q.
Proof.
  intros H. apply slice0_In in H. apply filter_In in H.
  destruct H as [H Hk]. apply in_map_iff in H.
  destruct H as (line & <- & H).
  apply filter_In in H. destruct H as [H _].
  apply filter_In in H. destruct H as [H _].
  apply in_map_iff in H. destruct H as (piece & <- & Hpiece).
  apply split_In in Hpiece. destruct Hpiece as [Hpi Hpl].
  assert (Hin : infix (LineParser.cleanLine (trim piece)) piece).
  { eapply infix_trans; [apply clean_infix | apply trim_infix]. }
  split; [eapply infix_trans; eauto|].
  split; [eapply infix_includes; eauto|].
  split; [apply trim_idempotent|].
  now apply Nat.ltb_lt.
Qed.

Lemma X3_line_origin_witness :
  infix (lit "Explain the significance of the key point.")
        (lit "1. Explain the significance of the key point.")
  /\ includes LF (lit "Explain the significance of the key point.") = false
  /\ trim (lit "Explain the significance of the key point.")
     = lit "Explain the significance of the key point."
  /\ 5 < length (lit "Explain the significance of the key point.").
Proof.
  apply (X3_line_origin
           (lit "1. Explain the significance of the key point.") 10
           (lit "Explain the significance of the key point.")).
  left; reflexivity.
Defined.

(** ** The bound [maxQuestions] *)

Lemma slice0_prefix_of_larger (A : Type) (k k' : Z) (l : list A) :
  (0 <= k <= k')%Z ->
  slice0 k l = firstn (Z.to_nat k) (slice0 k' l).
Proof.
  intros Hk. unfold slice0.
  destruct (Z.ltb_spec k 0) as [Hlt|_]; [lia|].
  destruct (Z.ltb_spec k' 0) as [Hlt|_]; [lia|].
  rewrite firstn_firstn. f_equal. lia.
Qed.

(** X4: asking for fewer questions gives a prefix of what asking for more
    gives: for 0 <= k <= k' the list returned for k is the first k elements
    of the list returned for k' (in both copies of the parser). *)
Theorem X4_fewer_is_prefix (text : jsstring) (k k' : Z) :
  (0 <= k <= k')%Z ->
  Parser.parseQuestionsFromText text k
  = firstn (Z.to_nat k) (Parser.parseQuestionsFromText text k')
  /\ LineParser.parseQuestionsFromText text k
     = firstn (Z.to_nat k) (LineParser.parseQuestionsFromText text k').
Proof.
  intros Hk. split; now apply slice0_prefix_of_larger.
Qed.

Lemma X4_fewer_is_prefix_witness :
  Parser.parseQuestionsFromText oneLine 2
  = firstn 2 (Parser.parseQuestionsFromText oneLine 10)
  /\ LineParser.parseQuestionsFromText oneLine 2
     = firstn 2 (LineParser.parseQuestionsFromText oneLine 10).
Proof. apply (X4_fewer_is_prefix oneLine 2 10). lia. Defined.

(** ** A blank completion *)

Lemma whiteSpace_not_digit (c : code_unit) :
  isWhiteSpace c = true -> isDigit c = false.
Proof.
  unfold isDigit. intros H.
  destruct (N.leb_spec 48 c) as [H1|H1]; [|reflexivity].
  destruct (N.leb_spec c 57) as [H2|H2]; [|reflexivity].
  exfalso. unfold isWhiteSpace in H.
  repeat match type of H with
         | context [(?a <=? ?b)%N] =>
             destruct (N.leb_spec a b); try lia
         | context [(?a =? ?b)%N] =>
             destruct (N.eqb_spec a b); try lia
         end.
Qed.

Lemma infix_blank (x s : jsstring) :
  infix x s -> forallb isWhiteSpace s = true -> forallb isWhiteSpace x = true.
Proof.
  intros (a & b & ->). rewrite !forallb_app.
  intros H. apply andb_prop in H. destruct H as [_ H].
  apply andb_prop in H. tauto.
Qed.

Lemma blank_pieces (sep : code_unit) (s : jsstring) :
  forallb isWhiteSpace s = true ->
  filter (fun part => (0 <? length part)%nat) (map trim (split sep s)) = [].
Proof.
  intros Hs.
  assert (H : forall x, In x (split sep s) -> trim x = []).
  { intros x Hx. apply trim_blank. apply split_In in Hx.
    destruct Hx as [Hx _]. now apply infix_blank with s. }
  induction (split sep s) as [|y ys IH]; simpl; [reflexivity|].
  rewrite (H y (or_introl eq_refl)). simpl.
  apply IH. intros x Hx. apply H. now right.
Qed.

(** X6: a completion of white space only (the empty text included) gives no
    question, whatever maxQuestions is, in both copies of the parser. *)
Theorem X6_blank_completion (text : jsstring) (k : Z) :
  forallb isWhiteSpace text = true ->
  Parser.parseQuestionsFromText text k = []
  /\ LineParser.parseQuestionsFromText text k = [].
Proof.
  intros Hb. split.
  - assert (Hn : Parser.normalise text = text).
    { apply normalise_digit_free.
      clear k. induction text as [|c s IH]; [reflexivity|].
      simpl in *. apply andb_prop in Hb. destruct Hb as [Hc Hb].
      now rewrite (whiteSpace_not_digit c Hc), (IH Hb). }
    assert (Hs : Parser.segments text = []).
    { unfold Parser.segments. rewrite Hn.
      assert (H : forall line, In line (split LF text) ->
                               Parser.lineSegments line = []).
      { intros line Hl. unfold Parser.lineSegments.
        rewrite blank_pieces; [reflexivity|].
        apply split_In in Hl. destruct Hl as [Hl _].
        now apply infix_blank with text. }
      induction (split LF text) as [|y ys IH]; simpl; [reflexivity|].
      rewrite (H y (or_introl eq_refl)). simpl.
      apply IH. intros x Hx. apply H. now right. }
    unfold Parser.parseQuestionsFromText, Parser.survivors. rewrite Hs.
    unfold slice0. simpl. now rewrite firstn_nil.
  - unfold LineParser.parseQuestionsFromText, LineParser.lines.
    rewrite blank_pieces by exact Hb.
    unfold slice0. simpl. now rewrite firstn_nil.
Qed.

Lemma X6_blank_completion_witness :
  Parser.parseQuestionsFromText [SPACE; LF; SPACE] 10 = []
  /\ LineParser.parseQuestionsFromText [SPACE; LF; SPACE] 10 = [].
Proof. apply (X6_blank_completion [SPACE; LF; SPACE] 10). reflexivity. Defined.

(** ** The runs of the question-generation tool *)

Lemma result_returned (A : Type) (m : M A) (r : A) :
  result m = Returned r -> exists t, m = (Returned r, t).
Proof. destruct m as [o t]. simpl. intros ->. now exists t. Qed.

Section ToolRuns.

Variable parse : jsstring -> Z -> list jsstring.

(** A run of the tool either ends in [failed], or the stream was drained
    and the result is made from the generated content. *)
Lemma execute_cases (context : QuestionTool.context)
      (mastra : option mastra) :
  let k := match QuestionTool.maxQuestions context with
           | Some n => n
           | None => 10%Z
           end in
  let text := QuestionTool.extractedText context in
  (exists t, QuestionTool.execute parse context mastra
             = (Returned QuestionTool.failed, t))
  \/ (exists m a s,
         mastra = Some m
         /\ isEmpty (trim text) = false
         /\ getAgent m (lit "textQuestionAgent") = Returned (Some a)
         /\ stream a (QuestionTool.prompt k text) = Returned s
         /\ failure s = None
         /\ QuestionTool.execute parse context mastra
            = (Returned (QuestionTool.fromGenerated
                           parse
                           (concat (map (fun chunk => orElse chunk [])
                                        (chunks s))) k),
               [Stream (QuestionTool.prompt k text)])).
Proof.
  intros k text.
  destruct (isEmpty (trim text)) eqn:Hb.
  - left. exists []. unfold QuestionTool.execute. fold text.
    rewrite Hb, orb_true_r. reflexivity.
  - destruct mastra as [m|].
    + destruct (getAgent m (lit "textQuestionAgent")) as [[a|]|e] eqn:Hg.
      * destruct (stream a (QuestionTool.prompt k text)) as [s|e] eqn:Hs.
        -- destruct (failure s) as [e|] eqn:Hf.
           ++ left. apply result_returned.
              apply execute_absorbs with (k := k) (e := e); [reflexivity|].
              apply tryBlock_throws. eapply StreamBreaks; eauto.
           ++ right. exists m, a, s. repeat split; try assumption.
              apply execute_drained with (a := a);
                [reflexivity | exact Hb | exact Hg | exact Hs | exact Hf].
        -- left. apply result_returned.
           apply execute_absorbs with (k := k) (e := e); [reflexivity|].
           apply tryBlock_throws. eapply StreamThrows; eauto.
      * left. apply result_returned.
        eapply execute_absorbs with (k := k); [reflexivity|].
        apply tryBlock_throws. eapply NoAgent; eauto.
      * left. apply result_returned.
        apply execute_absorbs with (k := k) (e := e); [reflexivity|].
        apply tryBlock_throws. eapply LookupThrows; eauto.
    + left. apply result_returned.
      eapply execute_absorbs with (k := k); [reflexivity|].
      apply tryBlock_throws. now apply NoInstance.
Qed.

End ToolRuns.

Lemma execute_calls_found (parse : jsstring -> Z -> list jsstring)
      (context : QuestionTool.context) (m : Effects.mastra) (a : agent)
      (k : Z) :
  k = match QuestionTool.maxQuestions context with
      | Some n => n
      | None => 10%Z
      end ->
  isEmpty (trim (QuestionTool.extractedText context)) = false ->
  getAgent m (lit "textQuestionAgent") = Returned (Some a) ->
  calls (QuestionTool.execute parse context (Some m))
  = [Stream (QuestionTool.prompt k (QuestionTool.extractedText context))].
Proof.
  intros -> Hne Hg. unfold QuestionTool.execute.
  assert (E : isEmpty (QuestionTool.extractedText context) = false).
  { destruct (QuestionTool.extractedText context); [discriminate Hne|].
    reflexivity. }
  rewrite E, Hne. simpl.
  unfold QuestionTool.tryBlock, QuestionTool.drain. run.
  rewrite Hg. simpl.
  destruct (stream a _) as [s|e]; simpl; [|reflexivity].
  destruct (failure s); reflexivity.
Qed.

(** X7: a result with success: false carries no questions: whenever the
    tool returns success: false its questions are [] and its questionCount
    is 0, and whenever the workflow step returns success: false its
    questions are []. *)
Theorem X7_failure_carries_no_questions
        (parse : jsstring -> Z -> list jsstring) (mastra : option mastra) :
  (forall context r,
      result (QuestionTool.execute parse context mastra) = Returned r ->
      QuestionTool.success r = false ->
      QuestionTool.questions r = [] /\ QuestionTool.questionCount r = 0%Z)
  /\ (forall inputData r,
         result (Workflow.step parse mastra inputData) = Returned r ->
         Workflow.success r = false ->
         Workflow.questions r = []).
Proof.
  assert (Htool : forall context r,
             result (QuestionTool.execute parse context mastra) = Returned r ->
             QuestionTool.success r = false ->
             QuestionTool.questions r = []
             /\ QuestionTool.questionCount r = 0%Z).
  { intros context r Hr Hs.
    destruct (execute_cases parse context mastra)
      as [[t E] | (m & a & s & _ & _ & _ & _ & _ & E)];
      rewrite E in Hr; simpl in Hr; injection Hr as <-.
    - now split.
    - unfold QuestionTool.fromGenerated in *.
      destruct (20 <? _); [discriminate Hs | now split]. }
  split; [exact Htool|].
  intros inputData r Hr Hs.
  unfold Workflow.step, Workflow.generateQuestionsFromSummaryStep in Hr.
  destruct (isEmpty (Workflow.summary inputData)).
  - simpl in Hr. injection Hr as <-. reflexivity.
  - destruct (QuestionTool.execute parse _ mastra) as [[r'|e] t] eqn:E;
      run.
    + injection Hr as <-. simpl in *.
      apply (Htool {| QuestionTool.extractedText := Workflow.summary inputData;
                      QuestionTool.maxQuestions := None |} r');
        [now rewrite E | exact Hs].
    + injection Hr as <-. reflexivity.
Qed.

Lemma X7_failure_carries_no_questions_witness :
  QuestionTool.questions QuestionTool.failed = []
  /\ QuestionTool.questionCount QuestionTool.failed = 0%Z.
Proof.
  apply (X7_failure_carries_no_questions
           Parser.parseQuestionsFromText
           (Some (mastraWith (lit "textQuestionAgent") agentFailing)))
    with (context := someSummary); reflexivity.
Defined.

(** X8: the tool answers success: true exactly when the input text is not
    blank, the agent is found, the stream is drained without an error and
    the generated content has more than 20 code units after trimming; its
    questions are then what the parser makes of the whole generated
    content with the given maxQuestions (10 when none is given). *)
Theorem X8_success_exactly_when
        (parse : jsstring -> Z -> list jsstring)
        (context : QuestionTool.context) (mastra : option mastra)
        (r : QuestionTool.toolResult) :
  let k := match QuestionTool.maxQuestions context with
           | Some n => n
           | None => 10%Z
           end in
  let text := QuestionTool.extractedText context in
  result (QuestionTool.execute parse context mastra) = Returned r ->
  (QuestionTool.success r = true <->
   exists m a s,
     mastra = Some m
     /\ isEmpty (trim text) = false
     /\ getAgent m (lit "textQuestionAgent") = Returned (Some a)
     /\ stream a (QuestionTool.prompt k text) = Returned s
     /\ failure s = None
     /\ 20 < length (trim (concat (map (fun chunk => orElse chunk [])
                                       (chunks s))))
     /\ QuestionTool.questions r
        = parse (concat (map (fun chunk => orElse chunk []) (chunks s))) k).
Proof.
  intros k text Hr. split.
  - intros Hs.
    destruct (execute_cases parse context mastra)
      as [[t E] | (m & a & s & Hm & Hb & Hg & Hst & Hf & E)];
      rewrite E in Hr; simpl in Hr; injection Hr as <-.
    + discriminate Hs.
    + exists m, a, s. unfold QuestionTool.fromGenerated in *.
      destruct (Nat.ltb_spec 20 (length (trim (concat
                  (map (fun chunk => orElse chunk []) (chunks s))))))
        as [Hlen|Hlen]; [|discriminate Hs].
      repeat split; assumption || reflexivity.
  - intros (m & a & s & -> & Hb & Hg & Hst & Hf & Hlen & _).
    rewrite (execute_drained parse context m a s k eq_refl Hb Hg Hst Hf)
      in Hr.
    simpl in Hr. injection Hr as <-.
    unfold QuestionTool.fromGenerated.
    apply Nat.ltb_lt in Hlen. now rewrite Hlen.
Qed.

Lemma X8_success_exactly_when_witness :
  QuestionTool.success
    {| QuestionTool.questions := threeQuestions;
       QuestionTool.questionCount := 3;
       QuestionTool.success := true |} = true
  <-> exists m a s,
      Some (mastraWith (lit "textQuestionAgent") (agentAnswering oneLine))
      = Some m
      /\ isEmpty (trim (QuestionTool.extractedText someSummary)) = false
      /\ getAgent m (lit "textQuestionAgent") = Returned (Some a)
      /\ stream a (QuestionTool.prompt
                     10 (QuestionTool.extractedText someSummary))
         = Returned s
      /\ failure s = None
      /\ 20 < length (trim (concat (map (fun chunk => orElse chunk [])
                                        (chunks s))))
      /\ threeQuestions
         = Parser.parseQuestionsFromText
             (concat (map (fun chunk => orElse chunk []) (chunks s))) 10.
Proof.
  apply (X8_success_exactly_when
           Parser.parseQuestionsFromText someSummary
           (Some (mastraWith (lit "textQuestionAgent")
                             (agentAnswering oneLine)))
           {| QuestionTool.questions := threeQuestions;
              QuestionTool.questionCount := 3;
              QuestionTool.success := true |}).
  reflexivity.
Defined.

(** X9: the tool sends a request exactly when the text is not blank and
    the question agent is found: it then makes the one streamed request,
    whatever happens to the stream afterwards; in every other case (a text
    that is empty or white space only, no mastra instance, no agent, a
    lookup that throws) it makes no call at all. *)
Theorem X9_when_a_request_is_sent
        (parse : jsstring -> Z -> list jsstring)
        (context : QuestionTool.context) (mastra : option mastra) :
  let k := match QuestionTool.maxQuestions context with
           | Some n => n
           | None => 10%Z
           end in
  let text := QuestionTool.extractedText context in
  let sent := calls (QuestionTool.execute parse context mastra) in
  (sent = [] \/ sent = [Stream (QuestionTool.prompt k text)])
  /\ (sent = [Stream (QuestionTool.prompt k text)] <->
      isEmpty (trim text) = false
      /\ exists m a,
          mastra = Some m
          /\ getAgent m (lit "textQuestionAgent") = Returned (Some a)).
Proof.
  intros k text sent. subst sent.
  split; [apply execute_calls|]. split.
  - intros Hc. unfold QuestionTool.execute in Hc. fold text k in Hc.
    destruct (isEmpty (trim text)) eqn:Hb.
    + rewrite orb_true_r in Hc. discriminate Hc.
    + split; [reflexivity|].
      rewrite orb_false_r in Hc.
      destruct (isEmpty text); [discriminate Hc|].
      unfold QuestionTool.tryBlock, QuestionTool.drain in Hc.
      destruct mastra as [m|]; run; [|discriminate Hc].
      destruct (getAgent m (lit "textQuestionAgent")) as [[a|]|e] eqn:Hg;
        simpl in Hc; try discriminate Hc.
      exists m, a. now split.
  - intros (Hb & m & a & -> & Hg).
    now apply execute_calls_found with a.
Qed.

Lemma X9_when_a_request_is_sent_witness :
  calls (QuestionTool.execute
           Parser.parseQuestionsFromText someSummary
           (Some (mastraWith (lit "textQuestionAgent") agentFailing)))
  = [Stream (QuestionTool.prompt
               10 (QuestionTool.extractedText someSummary))].
Proof.
  apply (X9_when_a_request_is_sent
           Parser.parseQuestionsFromText someSummary
           (Some (mastraWith (lit "textQuestionAgent") agentFailing))).
  split; [reflexivity|].
  exists (mastraWith (lit "textQuestionAgent") agentFailing), agentFailing.
  split; reflexivity.
Defined.

(** X10: when the drained content has at most 20 code units after
    trimming, the tool returns questions: [], questionCount: 0,
    success: false after its one request, and the parser has no part in
    the result: the run is the same for every parser. *)
Theorem X10_short_completion
        (parse parse' : jsstring -> Z -> list jsstring)
        (context : QuestionTool.context) (m : Effects.mastra) (a : agent)
        (s : textStream) :
  let k := match QuestionTool.maxQuestions context with
           | Some n => n
           | None => 10%Z
           end in
  let request := QuestionTool.prompt k (QuestionTool.extractedText context) in
  isEmpty (trim (QuestionTool.extractedText context)) = false ->
  getAgent m (lit "textQuestionAgent") = Returned (Some a) ->
  stream a request = Returned s ->
  failure s = None ->
  length (trim (concat (map (fun chunk => orElse chunk []) (chunks s))))
  <= 20 ->
  QuestionTool.execute parse context (Some m)
  = (Returned QuestionTool.failed, [Stream request])
  /\ QuestionTool.execute parse' context (Some m)
     = QuestionTool.execute parse context (Some m).
Proof.
  intros k request Hb Hg Hs Hf Hlen.
  rewrite (execute_drained parse context m a s k eq_refl Hb Hg Hs Hf).
  rewrite (execute_drained parse' context m a s k eq_refl Hb Hg Hs Hf).
  unfold QuestionTool.fromGenerated.
  destruct (Nat.ltb_spec 20 (length (trim (concat
              (map (fun chunk => orElse chunk []) (chunks s))))));
    [lia|]. now split.
Qed.

Lemma X10_short_completion_witness :
  QuestionTool.execute
    Parser.parseQuestionsFromText someSummary
    (Some (mastraWith (lit "textQuestionAgent")
                      (agentAnswering (lit "Why does it matter?"))))
  = (Returned QuestionTool.failed,
     [Stream (QuestionTool.prompt
                10 (QuestionTool.extractedText someSummary))])
  /\ QuestionTool.execute
       LineParser.parseQuestionsFromText someSummary
       (Some (mastraWith (lit "textQuestionAgent")
                         (agentAnswering (lit "Why does it matter?"))))
     = QuestionTool.execute
         Parser.parseQuestionsFromText someSummary
         (Some (mastraWith (lit "textQuestionAgent")
                           (agentAnswering (lit "Why does it matter?")))).
Proof.
  apply (X10_short_completion
           Parser.parseQuestionsFromText LineParser.parseQuestionsFromText
           someSummary
           (mastraWith (lit "textQuestionAgent")
                       (agentAnswering (lit "Why does it matter?")))
           (agentAnswering (lit "Why does it matter?"))
           {| chunks := [Some (lit "Why does it matter?")];
              failure := None |});
    try reflexivity.
  vm_compute. lia.
Defined.

(** X11: the result depends on the stream only through the concatenation
    of its chunks, missing and empty chunks counting for nothing: two
    drained streams with the same concatenation give the same run. *)
Theorem X11_chunking_is_immaterial
        (parse : jsstring -> Z -> list jsstring)
        (context : QuestionTool.context) (m m' : Effects.mastra)
        (a a' : agent) (s s' : textStream) :
  let k := match QuestionTool.maxQuestions context with
           | Some n => n
           | None => 10%Z
           end in
  let request := QuestionTool.prompt k (QuestionTool.extractedText context) in
  isEmpty (trim (QuestionTool.extractedText context)) = false ->
  getAgent m (lit "textQuestionAgent") = Returned (Some a) ->
  getAgent m' (lit "textQuestionAgent") = Returned (Some a') ->
  stream a request = Returned s ->
  stream a' request = Returned s' ->
  failure s = None ->
  failure s' = None ->
  concat (map (fun chunk => orElse chunk []) (chunks s))
  = concat (map (fun chunk => orElse chunk []) (chunks s')) ->
  QuestionTool.execute parse context (Some m)
  = QuestionTool.execute parse context (Some m').
Proof.
  intros k request Hb Hg Hg' Hs Hs' Hf Hf' Hc.
  rewrite (execute_drained parse context m a s k eq_refl Hb Hg Hs Hf).
  rewrite (execute_drained parse context m' a' s' k eq_refl Hb Hg' Hs' Hf').
  now rewrite Hc.
Qed.

Lemma X11_chunking_is_immaterial_witness :
  QuestionTool.execute
    Parser.parseQuestionsFromText someSummary
    (Some (mastraWith (lit "textQuestionAgent") (agentAnswering oneLine)))
  = QuestionTool.execute
      Parser.parseQuestionsFromText someSummary
      (Some (mastraWith (lit "textQuestionAgent")
                        (agentChunked [Some (lit "1. What is X? 2. What");
                                       None; Some [];
                                       Some (lit " is Y? 3. What is Z?")]))).
Proof.
  apply (X11_chunking_is_immaterial
           Parser.parseQuestionsFromText someSummary
           (mastraWith (lit "textQuestionAgent") (agentAnswering oneLine))
           (mastraWith (lit "textQuestionAgent")
                       (agentChunked [Some (lit "1. What is X? 2. What");
                                      None; Some [];
                                      Some (lit " is Y? 3. What is Z?")]))
           (agentAnswering oneLine)
           (agentChunked [Some (lit "1. What is X? 2. What");
                          None; Some [];
                          Some (lit " is Y? 3. What is Z?")])
           {| chunks := [Some oneLine]; failure := None |}
           {| chunks := [Some (lit "1. What is X? 2. What");
                         None; Some [];
                         Some (lit " is Y? 3. What is Z?")];
              failure := None |});
    reflexivity.
Defined.

(** ** The text the extractor collects *)

Section ExtractorText.

Variable parseBuffer : Buffer -> Extractor.parserEvent.
Variable decodeURIComponent : jsstring -> outcome jsstring.

Local Abbreviation decodeRuns := (decodeRuns decodeURIComponent).
Local Abbreviation pagesText := (pagesText decodeURIComponent).
Local Abbreviation documentText := (documentText decodeURIComponent).
Local Abbreviation extract :=
  (Extractor.extractTextFromPDF parseBuffer decodeURIComponent).

Lemma decodeRuns_app (runs runs' : list Extractor.textRun) :
  decodeRuns (runs ++ runs')
  = match decodeRuns runs with
    | Returned t =>
        match decodeRuns runs' with
        | Returned t' => Returned (t ++ t')
        | Thrown e => Thrown e
        end
    | Thrown e => Thrown e
    end.
Proof.
  induction runs as [|r runs IH]; simpl.
  - now destruct (decodeRuns runs').
  - destruct (truthy (Extractor.T r)); [|exact IH].
    destruct (decodeURIComponent _) as [d|e]; [|reflexivity].
    rewrite IH. destruct (decodeRuns runs) as [t|e]; [|reflexivity].
    destruct (decodeRuns runs') as [t'|e]; [|reflexivity].
    now rewrite <- !app_assoc.
Qed.

(** The three loops add to the accumulator what the pure functions give. *)
Lemma foldM_appendRun (runs : list Extractor.textRun) (acc : jsstring) :
  foldM (Extractor.appendRun decodeURIComponent) runs acc
  = match decodeRuns runs with
    | Returned t => ret (acc ++ t)
    | Thrown e => throw e
    end.
Proof.
  revert acc. induction runs as [|r runs IH]; intros acc; simpl.
  - now rewrite app_nil_r.
  - unfold Extractor.appendRun at 1.
    destruct (truthy (Extractor.T r)).
    + destruct (decodeURIComponent _) as [d|e]; run; [|reflexivity].
      rewrite IH. destruct (decodeRuns runs) as [t|e]; run; [|reflexivity].
      now rewrite <- !app_assoc.
    + run. rewrite IH. now destruct (decodeRuns runs).
Qed.

Lemma foldM_appendItem (items : list Extractor.textItem) (acc : jsstring) :
  foldM (Extractor.appendItem decodeURIComponent) items acc
  = match decodeRuns (flat_map runsOfItem items) with
    | Returned t => ret (acc ++ t)
    | Thrown e => throw e
    end.
Proof.
  revert acc. induction items as [|i items IH]; intros acc; simpl.
  - now rewrite app_nil_r.
  - rewrite decodeRuns_app. unfold Extractor.appendItem at 1.
    unfold runsOfItem at 1.
    destruct (Extractor.R i) as [runs|].
    + rewrite foldM_appendRun.
      destruct (decodeRuns runs) as [t|e]; run; [|reflexivity].
      rewrite IH.
      destruct (decodeRuns (flat_map runsOfItem items)) as [t'|e]; run;
        [|reflexivity].
      now rewrite <- !app_assoc.
    + run. rewrite IH.
      now destruct (decodeRuns (flat_map runsOfItem items)).
Qed.

Lemma foldM_appendPage (pages : list Extractor.page) (acc : jsstring) :
  foldM (Extractor.appendPage decodeURIComponent) pages acc
  = match pagesText pages with
    | Returned t => ret (acc ++ t)
    | Thrown e => throw e
    end.
Proof.
  revert acc. induction pages as [|p pages IH]; intros acc; simpl.
  - now rewrite app_nil_r.
  - unfold Extractor.appendPage at 1. unfold runsOfPage at 1.
    destruct (Extractor.Texts p) as [items|].
    + rewrite foldM_appendItem.
      destruct (decodeRuns (flat_map runsOfItem items)) as [t|e]; run;
        [|reflexivity].
      rewrite IH. destruct (pagesText pages) as [t'|e]; run; [|reflexivity].
      now rewrite <- !app_assoc.
    + run. rewrite IH. destruct (pagesText pages) as [t'|e]; run;
        [|reflexivity].
      now rewrite <- !app_assoc.
Qed.

Lemma collect_documentText (pdfData : option Extractor.pdfData) :
  Extractor.collect decodeURIComponent pdfData
  = match documentText pdfData with
    | Returned t => ret (t, pageCount pdfData)
    | Thrown e => throw e
    end.
Proof.
  unfold Extractor.collect, documentText, pageCount.
  destruct pdfData as [[[pages|]]|]; try reflexivity.
  rewrite foldM_appendPage.
  destruct (pagesText pages) as [t|e]; reflexivity.
Qed.

(** The extractor on a buffer that is not empty, for each answer of the
    parser. *)
Lemma extract_run (b : Byte.byte) (bs : Buffer) :
  extract (Some (b :: bs))
  = (match parseBuffer (b :: bs) with
     | Extractor.DataReady pdfData =>
         match documentText pdfData with
         | Returned t =>
             if isEmpty (trim t)
             then Thrown (ErrorObject Extractor.noText)
             else Returned {| Extractor.extractedText := trim t;
                              Extractor.pagesCount := pageCount pdfData |}
         | Thrown e =>
             Thrown (ErrorObject (lit "Text extraction failed: "
                                  ++ messageOf e))
         end
     | Extractor.DataError error =>
         Thrown (ErrorObject
                   (lit "PDF parsing failed: "
                    ++ orElse (Extractor.parserError error)
                              (orElse (Extractor.failureMessage error)
                                      (lit "Unknown error"))))
     end,
     [ParseBuffer (b :: bs)]).
Proof.
  unfold Extractor.extractTextFromPDF. run.
  destruct (parseBuffer (b :: bs)) as [pdfData|error]; [|reflexivity].
  unfold Extractor.onDataReady. rewrite collect_documentText.
  destruct (documentText pdfData) as [t|e]; run; [|reflexivity].
  destruct (isEmpty (trim t)); reflexivity.
Qed.

Lemma extract_returned_calls (pdfBuffer : Buffer)
      (r : Extractor.extraction) (t : list event) :
  extract (Some pdfBuffer) = (Returned r, t) ->
  t = [ParseBuffer pdfBuffer] /\ pdfBuffer <> [].
Proof.
  destruct pdfBuffer as [|b bs]; [discriminate|].
  rewrite extract_run. intros [= _ <-]. now split.
Qed.

(** The document's text fails where the text of all its runs in reading
    order fails, with the same error. *)
Lemma pagesText_thrown (pages : list Extractor.page) (e : thrown) :
  pagesText pages = Thrown e <->
  decodeRuns (flat_map runsOfPage pages) = Thrown e.
Proof.
  induction pages as [|p pages IH]; simpl; [tauto|].
  rewrite decodeRuns_app.
  destruct (decodeRuns (runsOfPage p)) as [t|e']; [|tauto].
  destruct (pagesText pages) as [t'|e'];
    destruct (decodeRuns (flat_map runsOfPage pages)) as [u|e''];
    split; intros H; try discriminate H;
    try (apply IH in H; first [discriminate H | exact H]);
    apply IH; exact H.
Qed.

Lemma decodeRuns_first_failure (pre post : list Extractor.textRun)
      (run : Extractor.textRun) (t : jsstring) (e : thrown) :
  decodeRuns pre = Returned t ->
  truthy (Extractor.T run) = true ->
  decodeURIComponent (orElse (Extractor.T run) []) = Thrown e ->
  decodeRuns (pre ++ run :: post) = Thrown e.
Proof.
  intros Hpre Ht He. rewrite decodeRuns_app, Hpre. simpl.
  now rewrite Ht, He.
Qed.

End ExtractorText.

(** X12: on a buffer that is not empty the extractor calls the parser
    exactly once, and what it answers is a function of the parsed document:
    the text of the document is, page by page, the decoded text of every
    run with a non-empty T followed by a space, and two line feeds after
    each page; the extractor returns this text trimmed with the number of
    pages, fails with the "no text" error when the trimmed text is empty,
    with "Text extraction failed: ..." when a decoding throws, and with
    "PDF parsing failed: ..." (parserError, else message, else 'Unknown
    error') when the parser reports an error. *)
Theorem X12_extractor_computes_document_text
        (parseBuffer : Buffer -> Extractor.parserEvent)
        (decodeURIComponent : jsstring -> outcome jsstring)
        (b : Byte.byte) (bs : Buffer) :
  Extractor.extractTextFromPDF parseBuffer decodeURIComponent
                               (Some (b :: bs))
  = (match parseBuffer (b :: bs) with
     | Extractor.DataReady pdfData =>
         match documentText decodeURIComponent pdfData with
         | Returned t =>
             if isEmpty (trim t)
             then Thrown (ErrorObject Extractor.noText)
             else Returned {| Extractor.extractedText := trim t;
                              Extractor.pagesCount := pageCount pdfData |}
         | Thrown e =>
             Thrown (ErrorObject (lit "Text extraction failed: "
                                  ++ messageOf e))
         end
     | Extractor.DataError error =>
         Thrown (ErrorObject
                   (lit "PDF parsing failed: "
                    ++ orElse (Extractor.parserError error)
                              (orElse (Extractor.failureMessage error)
                                      (lit "Unknown error"))))
     end,
     [ParseBuffer (b :: bs)]).
Proof. apply extract_run. Qed.

(** X13: one run whose decoding throws fails the whole extraction, whatever
    text the other runs hold: when the runs before it (in reading order)
    decode, the extractor fails with "Text extraction failed: " followed by
    the message of that error. *)
Theorem X13_first_bad_run_fails_extraction
        (parseBuffer : Buffer -> Extractor.parserEvent)
        (decodeURIComponent : jsstring -> outcome jsstring)
        (b : Byte.byte) (bs : Buffer) (pdfData : option Extractor.pdfData)
        (pre post : list Extractor.textRun) (run : Extractor.textRun)
        (t : jsstring) (e : thrown) :
  parseBuffer (b :: bs) = Extractor.DataReady pdfData ->
  runsOf pdfData = pre ++ run :: post ->
  decodeRuns decodeURIComponent pre = Returned t ->
  truthy (Extractor.T run) = true ->
  decodeURIComponent (orElse (Extractor.T run) []) = Thrown e ->
  result (Extractor.extractTextFromPDF parseBuffer decodeURIComponent
                                       (Some (b :: bs)))
  = Thrown (ErrorObject (lit "Text extraction failed: " ++ messageOf e)).
Proof.
  intros Hp Hruns Hpre Ht He. rewrite extract_run, Hp. simpl.
  assert (Hd : documentText decodeURIComponent pdfData = Thrown e).
  { unfold documentText, runsOf in *.
    destruct pdfData as [[[pages|]]|];
      try (destruct pre; discriminate Hruns).
    apply pagesText_thrown. rewrite Hruns.
    now apply decodeRuns_first_failure with t. }
  now rewrite Hd.
Qed.

Lemma X13_first_bad_run_fails_extraction_witness :
  result (Extractor.extractTextFromPDF
            (fun _ => Extractor.DataReady percentDocument) decodeStrict
            (Some pdfBytes))
  = Thrown (ErrorObject (lit "Text extraction failed: URI malformed")).
Proof.
  apply (X13_first_bad_run_fails_extraction
           (fun _ => Extractor.DataReady percentDocument) decodeStrict
           Byte.x25 [Byte.x50; Byte.x44; Byte.x46] percentDocument
           [ {| Extractor.T := Some (lit "Hello") |} ] []
           {| Extractor.T := Some (lit "100%") |}
           (lit "Hello ") (ErrorObject (lit "URI malformed")));
    reflexivity.
Defined.

(** ** The runs of the download-and-summarize tool *)

Lemma getAgentOpt_summarizer (mastra : option mastra) :
  getAgentOpt mastra (lit "pdfSummarizationAgent")
  = match summarizer mastra with
    | Returned a => (Returned (Some a), [])
    | Thrown e =>
        match mastra with
        | Some m =>
            match getAgent m (lit "pdfSummarizationAgent") with
            | Returned _ => (Returned None, [])
            | Thrown e' => (Thrown e', [])
            end
        | None => (Returned None, [])
        end
    end.
Proof.
  unfold getAgentOpt, summarizer, lift, ret. destruct mastra as [m|];
    [|reflexivity].
  now destruct (getAgent m (lit "pdfSummarizationAgent")) as [[a|]|e].
Qed.

(** Every run of the tool is one of the runs of [fetcherRun]. *)
Lemma fetcher_run (fetch : jsstring -> outcome Fetcher.response)
      (parseBuffer : Buffer -> Extractor.parserEvent)
      (decodeURIComponent : jsstring -> outcome jsstring)
      (pdfUrl : jsstring) (mastra : option mastra) :
  fetcherRun fetch parseBuffer decodeURIComponent pdfUrl mastra
             (Fetcher.execute fetch parseBuffer decodeURIComponent
                              pdfUrl mastra).
Proof.
  unfold Fetcher.execute, Fetcher.tryBlock.
  unfold bind, catch, ret, throw, lift, emit.
  destruct (fetch pdfUrl) as [response|inner] eqn:Hf;
    cbn -[Extractor.extractTextFromPDF getAgentOpt];
    [|eapply DownloadThrows; eauto].
  destruct (Fetcher.ok response) eqn:Hok;
    cbn -[Extractor.extractTextFromPDF getAgentOpt];
    [|eapply DownloadRefused; eauto].
  destruct (Fetcher.arrayBuffer response) as [pdfBuffer|inner] eqn:Hb;
    cbn -[Extractor.extractTextFromPDF getAgentOpt];
    [|eapply BodyThrows; eauto].
  destruct (Extractor.extractTextFromPDF parseBuffer decodeURIComponent
                                         (Some pdfBuffer))
    as [[extractionResult|inner] t] eqn:He;
    cbn -[Extractor.extractTextFromPDF getAgentOpt];
    [|rewrite ?app_nil_r; eapply ExtractionFails; eauto].
  destruct (extract_returned_calls _ _ _ _ _ He) as [-> _].
  assert (Hr : result (Extractor.extractTextFromPDF
                         parseBuffer decodeURIComponent (Some pdfBuffer))
               = Returned extractionResult) by now rewrite He.
  destruct (extract_success _ _ _ _ Hr) as (Htrim & Hne & _).
  rewrite Htrim, Hne. cbn -[getAgentOpt].
  rewrite getAgentOpt_summarizer.
  destruct (summarizer mastra) as [a|inner] eqn:Hs.
  - cbn.
    destruct (generate a (Fetcher.summaryPrompt
                            (Extractor.extractedText extractionResult)))
      as [summaryResult|inner] eqn:Hg; cbn.
    + eapply Summarized; eauto.
    + eapply SummaryThrows; eauto.
  - assert (Hs' := Hs). unfold summarizer in Hs'.
    destruct mastra as [m|].
    + destruct (getAgent m (lit "pdfSummarizationAgent")) as [[a|]|e];
        try discriminate Hs'; injection Hs' as <-; cbn.
      * now apply NoSummarizer
          with (response := response) (extractionResult := extractionResult)
               (inner := ErrorObject
                           (lit "PDF summarization agent not found")).
      * now apply NoSummarizer
          with (response := response) (extractionResult := extractionResult)
               (inner := e).
    + injection Hs' as <-. cbn.
      now apply NoSummarizer
        with (response := response) (extractionResult := extractionResult)
             (inner := ErrorObject (lit "PDF summarization agent not found")).
Qed.

Section FetcherFacts.

Variable fetch : jsstring -> outcome Fetcher.response.
Variable parseBuffer : Buffer -> Extractor.parserEvent.
Variable decodeURIComponent : jsstring -> outcome jsstring.

Local Abbreviation extract :=
  (Extractor.extractTextFromPDF parseBuffer decodeURIComponent).
Local Abbreviation execute :=
  (Fetcher.execute fetch parseBuffer decodeURIComponent).

Lemma fetcher_returned (pdfUrl : jsstring) (mastra : option mastra)
      (r : Workflow.pdfSummary) :
  result (execute pdfUrl mastra) = Returned r ->
  exists response pdfBuffer extractionResult a summaryResult,
    fetch pdfUrl = Returned response
    /\ Fetcher.ok response = true
    /\ Fetcher.arrayBuffer response = Returned pdfBuffer
    /\ extract (Some pdfBuffer)
       = (Returned extractionResult, [ParseBuffer pdfBuffer])
    /\ summarizer mastra = Returned a
    /\ generate a (Fetcher.summaryPrompt
                     (Extractor.extractedText extractionResult))
       = Returned summaryResult
    /\ execute pdfUrl mastra
       = (Returned r,
          [Fetch pdfUrl; ParseBuffer pdfBuffer;
           Generate (Fetcher.summaryPrompt
                       (Extractor.extractedText extractionResult))])
    /\ r = {| Workflow.summary :=
                orElse (text summaryResult) Fetcher.placeholder;
              Workflow.fileSize := Z.of_nat (length pdfBuffer);
              Workflow.pagesCount := Extractor.pagesCount extractionResult;
              Workflow.characterCount :=
                Z.of_nat (length (Extractor.extractedText
                                    extractionResult)) |}.
Proof.
  intros Hr.
  pose proof (fetcher_run fetch parseBuffer decodeURIComponent
                          pdfUrl mastra) as Hrun.
  inversion Hrun as [inner Hf E|response Hf Hok E|response inner Hf Hok Hb E
                     |response pdfBuffer inner t Hf Hok Hb He E
                     |response pdfBuffer ex inner Hf Hok Hb He Hs E
                     |response pdfBuffer ex a inner Hf Hok Hb He Hs Hg E
                     |response pdfBuffer ex a summaryResult
                        Hf Hok Hb He Hs Hg E];
    rewrite <- E in Hr; simpl in Hr; try discriminate Hr.
  injection Hr as <-.
  exists response, pdfBuffer, ex, a, summaryResult.
  repeat split; assumption || reflexivity.
Qed.

End FetcherFacts.

(** X14: every failure of the download-and-summarize tool is an Error whose
    message is "Failed to process PDF from URL: " followed by the message
    of the stage that failed, and of that stage only, the stages before it
    having succeeded: the fetch that was rejected; the download that was
    refused ("Failed to download PDF: status statusText"); after an ok
    response, the body that could not be read; after the body, the
    extraction that failed; after the extraction, the summarization agent
    that is not found; after the lookup, the summarization call on the
    extracted text that threw.  And each of these makes the tool fail with
    that message. *)
Theorem X14_fetcher_failures_name_the_stage
        (fetch : jsstring -> outcome Fetcher.response)
        (parseBuffer : Buffer -> Extractor.parserEvent)
        (decodeURIComponent : jsstring -> outcome jsstring)
        (pdfUrl : jsstring) (mastra : option mastra) (e : thrown) :
  result (Fetcher.execute fetch parseBuffer decodeURIComponent pdfUrl mastra)
  = Thrown e
  <->
  exists inner,
    e = ErrorObject (lit "Failed to process PDF from URL: "
                     ++ messageOf inner)
    /\ (fetch pdfUrl = Thrown inner
        \/ (exists response,
               fetch pdfUrl = Returned response
               /\ Fetcher.ok response = false
               /\ inner = ErrorObject
                            (lit "Failed to download PDF: "
                             ++ numberToString (Fetcher.status response)
                             ++ [SPACE] ++ Fetcher.statusText response))
        \/ (exists response,
               fetch pdfUrl = Returned response
               /\ Fetcher.ok response = true
               /\ Fetcher.arrayBuffer response = Thrown inner)
        \/ (exists response pdfBuffer,
               fetch pdfUrl = Returned response
               /\ Fetcher.ok response = true
               /\ Fetcher.arrayBuffer response = Returned pdfBuffer
               /\ result (Extractor.extractTextFromPDF
                            parseBuffer decodeURIComponent (Some pdfBuffer))
                  = Thrown inner)
        \/ (exists response pdfBuffer extractionResult,
               fetch pdfUrl = Returned response
               /\ Fetcher.ok response = true
               /\ Fetcher.arrayBuffer response = Returned pdfBuffer
               /\ result (Extractor.extractTextFromPDF
                            parseBuffer decodeURIComponent (Some pdfBuffer))
                  = Returned extractionResult
               /\ summarizer mastra = Thrown inner)
        \/ (exists response pdfBuffer extractionResult a,
               fetch pdfUrl = Returned response
               /\ Fetcher.ok response = true
               /\ Fetcher.arrayBuffer response = Returned pdfBuffer
               /\ result (Extractor.extractTextFromPDF
                            parseBuffer decodeURIComponent (Some pdfBuffer))
                  = Returned extractionResult
               /\ summarizer mastra = Returned a
               /\ generate a (Fetcher.summaryPrompt
                                (Extractor.extractedText extractionResult))
                  = Thrown inner)).
Proof.
  pose proof (fetcher_run fetch parseBuffer decodeURIComponent
                          pdfUrl mastra) as Hrun.
  split.
  - intros Hr.
    inversion Hrun as [inner Hf E|response Hf Hok E
                       |response inner Hf Hok Hb E
                       |response pdfBuffer inner t Hf Hok Hb He E
                       |response pdfBuffer ex inner Hf Hok Hb He Hs E
                       |response pdfBuffer ex a inner Hf Hok Hb He Hs Hg E
                       |response pdfBuffer ex a summaryResult
                          Hf Hok Hb He Hs Hg E];
      rewrite <- E in Hr; simpl in Hr; try discriminate Hr;
      injection Hr as <-; eexists; (split; [reflexivity|]).
    + now left.
    + right; left. exists response. now repeat split.
    + right; right; left. now exists response.
    + right; right; right; left. exists response, pdfBuffer.
      repeat split; try assumption. now rewrite He.
    + right; right; right; right; left. exists response, pdfBuffer, ex.
      repeat split; try assumption. now rewrite He.
    + right; right; right; right; right. exists response, pdfBuffer, ex, a.
      repeat split; try assumption. now rewrite He.
  - intros (inner & -> & Hcase).
    inversion Hrun as [inner' Hf E|response' Hf Hok E
                       |response' inner' Hf Hok Hb E
                       |response' pdfBuffer' inner' t Hf Hok Hb He E
                       |response' pdfBuffer' ex' inner' Hf Hok Hb He Hs E
                       |response' pdfBuffer' ex' a' inner' Hf Hok Hb He Hs Hg E
                       |response' pdfBuffer' ex' a' summaryResult
                          Hf Hok Hb He Hs Hg E];
      destruct Hcase
        as [H1 | [(r1 & H1 & H2 & H3) | [(r1 & H1 & H2 & H3)
            | [(r1 & b1 & H1 & H2 & H3 & H4)
            | [(r1 & b1 & x1 & H1 & H2 & H3 & H4 & H5)
            | (r1 & b1 & x1 & a1 & H1 & H2 & H3 & H4 & H5 & H6)]]]]];
      unfold result; cbn [fst];
      repeat match goal with
             | Ha : fetch pdfUrl = _, Hb : fetch pdfUrl = _ |- _ =>
                 rewrite Ha in Hb; first [discriminate Hb
                                         | injection Hb as Hb; subst]
             | Ha : Fetcher.ok ?r = _, Hb : Fetcher.ok ?r = _ |- _ =>
                 rewrite Ha in Hb; first [discriminate Hb | clear Hb]
             | Ha : Fetcher.arrayBuffer ?r = _,
               Hb : Fetcher.arrayBuffer ?r = _ |- _ =>
                 rewrite Ha in Hb; first [discriminate Hb
                                         | injection Hb as Hb; subst]
             | Ha : Extractor.extractTextFromPDF _ _ ?b = _,
               Hb : result (Extractor.extractTextFromPDF _ _ ?b) = _ |- _ =>
                 rewrite Ha in Hb; unfold result in Hb; cbn [fst] in Hb;
                 first [discriminate Hb | injection Hb as Hb; subst]
             | Ha : summarizer mastra = _, Hb : summarizer mastra = _ |- _ =>
                 rewrite Ha in Hb; first [discriminate Hb
                                         | injection Hb as Hb; subst]
             | Ha : generate ?a ?q = _, Hb : generate ?a ?q = _ |- _ =>
                 rewrite Ha in Hb; first [discriminate Hb
                                         | injection Hb as Hb; subst]
             end;
      reflexivity.
Qed.

Lemma X14_fetcher_failures_name_the_stage_witness :
  result (Fetcher.execute
            fetchStub (fun _ => Extractor.DataReady blankDocument)
            decodePlain (lit "https://example.com/scan.pdf") None)
  = Thrown (ErrorObject
              (lit "Failed to process PDF from URL: "
               ++ lit "No text could be extracted from the PDF")).
Proof.
  apply (X14_fetcher_failures_name_the_stage
           fetchStub (fun _ => Extractor.DataReady blankDocument)
           decodePlain (lit "https://example.com/scan.pdf") None).
  exists (ErrorObject (lit "No text could be extracted from the PDF")).
  split; [reflexivity|].
  right; right; right; left.
  exists {| Fetcher.ok := true;
            Fetcher.status := 200;
            Fetcher.statusText := lit "OK";
            Fetcher.arrayBuffer := Returned pdfBytes |}, pdfBytes.
  repeat split; reflexivity.
Defined.

(** X15: when the response is not ok the tool fails with "Failed to process
    PDF from URL: Failed to download PDF: status statusText" after the
    fetch alone: the body is not read, nothing is parsed and no summary is
    requested. *)
Theorem X15_refused_download
        (fetch : jsstring -> outcome Fetcher.response)
        (parseBuffer : Buffer -> Extractor.parserEvent)
        (decodeURIComponent : jsstring -> outcome jsstring)
        (pdfUrl : jsstring) (mastra : option mastra)
        (response : Fetcher.response) :
  fetch pdfUrl = Returned response ->
  Fetcher.ok response = false ->
  Fetcher.execute fetch parseBuffer decodeURIComponent pdfUrl mastra
  = (Thrown (ErrorObject
               (lit "Failed to process PDF from URL: "
                ++ lit "Failed to download PDF: "
                ++ numberToString (Fetcher.status response)
                ++ [SPACE] ++ Fetcher.statusText response)),
     [Fetch pdfUrl]).
Proof.
  intros Hf Hok. unfold Fetcher.execute, Fetcher.tryBlock.
  unfold bind, catch, ret, throw, lift, emit. rewrite Hf. cbn.
  rewrite Hok. reflexivity.
Qed.

(** A download that is refused with 404 Not Found. *)
Lemma X15_refused_download_witness :
  Fetcher.execute
    (fun _ => Returned {| Fetcher.ok := false;
                          Fetcher.status := 404;
                          Fetcher.statusText := lit "Not Found";
                          Fetcher.arrayBuffer := Returned pdfBytes |})
    parserStub decodePlain (lit "https://example.com/missing.pdf")
    (Some (mastraWith (lit "pdfSummarizationAgent") agentSilent))
  = (Thrown (ErrorObject
               (lit "Failed to process PDF from URL: Failed to download PDF: 404 Not Found")),
     [Fetch (lit "https://example.com/missing.pdf")]).
Proof.
  apply (X15_refused_download
           (fun _ => Returned {| Fetcher.ok := false;
                                 Fetcher.status := 404;
                                 Fetcher.statusText := lit "Not Found";
                                 Fetcher.arrayBuffer := Returned pdfBytes |})
           parserStub decodePlain (lit "https://example.com/missing.pdf")
           (Some (mastraWith (lit "pdfSummarizationAgent") agentSilent))
           {| Fetcher.ok := false;
              Fetcher.status := 404;
              Fetcher.statusText := lit "Not Found";
              Fetcher.arrayBuffer := Returned pdfBytes |});
    reflexivity.
Defined.

(** X16: the tool fetches first and once; it hands the downloaded buffer to
    the parser at most once, and only a buffer that is not empty; it asks
    for a summary only after an extraction that succeeded, and the request
    then holds the whole extracted text behind the instruction, without
    any truncation. *)
Theorem X16_fetcher_calls
        (fetch : jsstring -> outcome Fetcher.response)
        (parseBuffer : Buffer -> Extractor.parserEvent)
        (decodeURIComponent : jsstring -> outcome jsstring)
        (pdfUrl : jsstring) (mastra : option mastra) :
  let run := Fetcher.execute fetch parseBuffer decodeURIComponent
                             pdfUrl mastra in
  calls run = [Fetch pdfUrl]
  \/ exists response pdfBuffer,
      fetch pdfUrl = Returned response
      /\ Fetcher.arrayBuffer response = Returned pdfBuffer
      /\ pdfBuffer <> []
      /\ (calls run = [Fetch pdfUrl; ParseBuffer pdfBuffer]
          \/ exists extractionResult,
              result (Extractor.extractTextFromPDF
                        parseBuffer decodeURIComponent (Some pdfBuffer))
              = Returned extractionResult
              /\ calls run
                 = [Fetch pdfUrl; ParseBuffer pdfBuffer;
                    Generate
                      [ {| role := lit "user";
                           content :=
                             lit "Please provide a comprehensive summary of this PDF content:"
                             ++ [LF; LF]
                             ++ Extractor.extractedText
                                  extractionResult |} ]]).
Proof.
  intros run. subst run.
  pose proof (fetcher_run fetch parseBuffer decodeURIComponent
                          pdfUrl mastra) as Hrun.
  inversion Hrun as [inner Hf E|response Hf Hok E|response inner Hf Hok Hb E
                     |response pdfBuffer inner t Hf Hok Hb He E
                     |response pdfBuffer ex inner Hf Hok Hb He Hs E
                     |response pdfBuffer ex a inner Hf Hok Hb He Hs Hg E
                     |response pdfBuffer ex a summaryResult
                        Hf Hok Hb He Hs Hg E];
    unfold calls; cbn [snd]; try (now left).
  - destruct pdfBuffer as [|b bs].
    + left. simpl in He. injection He as _ <-. reflexivity.
    + right. exists response, (b :: bs). rewrite extract_run in He.
      injection He as _ <-. repeat split; try assumption; [discriminate|].
      now left.
  - right. exists response, pdfBuffer.
    destruct (extract_returned_calls _ _ _ _ _ He) as [_ Hne].
    repeat split; try assumption. now left.
  - right. exists response, pdfBuffer.
    destruct (extract_returned_calls _ _ _ _ _ He) as [_ Hne].
    repeat split; try assumption. right. exists ex.
    split; [now rewrite He | reflexivity].
  - right. exists response, pdfBuffer.
    destruct (extract_returned_calls _ _ _ _ _ He) as [_ Hne].
    repeat split; try assumption. right. exists ex.
    split; [now rewrite He | reflexivity].
Qed.

(** X17: what the tool returns when it succeeds: a summary that is never
    empty (the model's text, or the placeholder), a file size of at least
    one byte, a page count of at least 0 and a character count of at least
    1, which is the length of the trimmed extracted text; and it has then
    made exactly three calls: the fetch, the parse and the summary
    request. *)
Theorem X17_fetcher_success
        (fetch : jsstring -> outcome Fetcher.response)
        (parseBuffer : Buffer -> Extractor.parserEvent)
        (decodeURIComponent : jsstring -> outcome jsstring)
        (pdfUrl : jsstring) (mastra : option mastra)
        (r : Workflow.pdfSummary) :
  result (Fetcher.execute fetch parseBuffer decodeURIComponent pdfUrl mastra)
  = Returned r ->
  Workflow.summary r <> []
  /\ (1 <= Workflow.fileSize r)%Z
  /\ (0 <= Workflow.pagesCount r)%Z
  /\ (1 <= Workflow.characterCount r)%Z
  /\ exists pdfBuffer extractionResult,
      result (Extractor.extractTextFromPDF
                parseBuffer decodeURIComponent (Some pdfBuffer))
      = Returned extractionResult
      /\ Workflow.fileSize r = Z.of_nat (length pdfBuffer)
      /\ Workflow.characterCount r
         = Z.of_nat (length (Extractor.extractedText extractionResult))
      /\ calls (Fetcher.execute fetch parseBuffer decodeURIComponent
                                pdfUrl mastra)
         = [Fetch pdfUrl; ParseBuffer pdfBuffer;
            Generate (Fetcher.summaryPrompt
                        (Extractor.extractedText extractionResult))].
Proof.
  intros Hr.
  destruct (fetcher_returned fetch parseBuffer decodeURIComponent
                             pdfUrl mastra r Hr)
    as (response & pdfBuffer & ex & a & g & Hf & Hok & Hb & He & Hs & Hg
        & Hrun & ->).
  assert (Hex : result (Extractor.extractTextFromPDF
                          parseBuffer decodeURIComponent (Some pdfBuffer))
                = Returned ex) by now rewrite He.
  destruct (extract_success _ _ _ _ Hex) as (_ & Hne & Hp).
  destruct (extract_returned_calls _ _ _ _ _ He) as [_ Hbuf].
  simpl. split; [|split; [|split; [|split]]].
  - unfold orElse. destruct (text g) as [[|c s]|]; discriminate.
  - destruct pdfBuffer; [congruence | simpl; lia].
  - exact Hp.
  - destruct (Extractor.extractedText ex); [discriminate Hne | simpl; lia].
  - exists pdfBuffer, ex. repeat split; try assumption.
    now rewrite Hrun.
Qed.

Lemma X17_fetcher_success_witness :
  lit "Summary could not be generated" <> []
  /\ (1 <= 4)%Z
  /\ (0 <= 1)%Z
  /\ (1 <= 11)%Z
  /\ exists pdfBuffer extractionResult,
      result (Extractor.extractTextFromPDF
                parserStub decodePlain (Some pdfBuffer))
      = Returned extractionResult
      /\ 4%Z = Z.of_nat (length pdfBuffer)
      /\ 11%Z
         = Z.of_nat (length (Extractor.extractedText extractionResult))
      /\ calls (Fetcher.execute
                  fetchStub parserStub decodePlain
                  (lit "https://example.com/document.pdf")
                  (Some (mastraWith (lit "pdfSummarizationAgent")
                                    agentSilent)))
         = [Fetch (lit "https://example.com/document.pdf");
            ParseBuffer pdfBuffer;
            Generate (Fetcher.summaryPrompt
                        (Extractor.extractedText extractionResult))].
Proof.
  apply (X17_fetcher_success
           fetchStub parserStub decodePlain
           (lit "https://example.com/document.pdf")
           (Some (mastraWith (lit "pdfSummarizationAgent") agentSilent))
           {| Workflow.summary := lit "Summary could not be generated";
              Workflow.fileSize := 4;
              Workflow.pagesCount := 1;
              Workflow.characterCount := 11 |}).
  reflexivity.
Defined.

(** ** The workflow *)

Section BoundedParser.

Variable parse : jsstring -> Z -> list jsstring.
Hypothesis parse_bound :
  forall text k, (0 <= k)%Z -> (Z.of_nat (length (parse text k)) <= k)%Z.

Lemma tool_bound (context : QuestionTool.context) (mastra : option mastra)
      (r : QuestionTool.toolResult) (k : Z) :
  k = match QuestionTool.maxQuestions context with
      | Some n => n
      | None => 10%Z
      end ->
  (0 <= k)%Z ->
  result (QuestionTool.execute parse context mastra) = Returned r ->
  (Z.of_nat (length (QuestionTool.questions r)) <= k)%Z
  /\ (QuestionTool.questionCount r <= k)%Z.
Proof.
  intros -> Hk Hr.
  destruct (execute_cases parse context mastra)
    as [[t E] | (m & a & s & _ & _ & _ & _ & _ & E)];
    rewrite E in Hr; simpl in Hr; injection Hr as <-.
  - simpl. lia.
  - unfold QuestionTool.fromGenerated.
    destruct (20 <? _); simpl; [|lia].
    split; now apply parse_bound.
Qed.

(** The step on a summary that is not empty: the tool's questions and
    success flag, after the tool's calls. *)
Lemma step_on_summary (mastra : option mastra)
      (inputData : Workflow.pdfSummary) :
  isEmpty (Workflow.summary inputData) = false ->
  exists r,
    QuestionTool.execute
      parse
      {| QuestionTool.extractedText := Workflow.summary inputData;
         QuestionTool.maxQuestions := None |} mastra
    = (Returned r,
       calls (Workflow.step parse mastra inputData))
    /\ result (Workflow.step parse mastra inputData)
       = Returned {| Workflow.questions := QuestionTool.questions r;
                     Workflow.success := QuestionTool.success r |}.
Proof.
  intros Hne.
  unfold Workflow.step, Workflow.generateQuestionsFromSummaryStep.
  rewrite Hne.
  destruct (execute_returns
              parse
              {| QuestionTool.extractedText := Workflow.summary inputData;
                 QuestionTool.maxQuestions := None |} mastra) as [r Hr].
  apply result_returned in Hr. destruct Hr as [t Hr].
  exists r. rewrite Hr. run. now rewrite app_nil_r.
Qed.

Lemma step_bound (mastra : option mastra) (inputData : Workflow.pdfSummary)
      (r : Workflow.questionsResult) :
  result (Workflow.step parse mastra inputData) = Returned r ->
  length (Workflow.questions r) <= 10.
Proof.
  intros Hr. destruct (isEmpty (Workflow.summary inputData)) eqn:Hne.
  - unfold Workflow.step, Workflow.generateQuestionsFromSummaryStep in Hr.
    rewrite Hne in Hr. simpl in Hr. injection Hr as <-. simpl. lia.
  - destruct (step_on_summary mastra inputData Hne) as (tr & Ht & Hs).
    rewrite Hs in Hr. injection Hr as <-. simpl.
    assert (H : (Z.of_nat (length (QuestionTool.questions tr)) <= 10)%Z).
    { apply (tool_bound
               {| QuestionTool.extractedText := Workflow.summary inputData;
                  QuestionTool.maxQuestions := None |} mastra tr 10);
        [reflexivity | lia | now rewrite Ht]. }
    lia.
Qed.

End BoundedParser.

Section WorkflowFacts.

Variable fetch : jsstring -> outcome Fetcher.response.
Variable parseBuffer : Buffer -> Extractor.parserEvent.
Variable decodeURIComponent : jsstring -> outcome jsstring.
Variable parse : jsstring -> Z -> list jsstring.

Lemma workflow_unfold (mastra : option mastra)
      (inputData : Pipeline.pdfInput) :
  Pipeline.pdfToQuestionsWorkflow
    fetch parseBuffer decodeURIComponent parse mastra inputData
  = match Fetcher.execute fetch parseBuffer decodeURIComponent
                          (Pipeline.pdfUrl inputData) mastra with
    | (Returned pdfSummary, t) =>
        (result (Workflow.step parse mastra pdfSummary),
         t ++ calls (Workflow.step parse mastra pdfSummary))
    | (Thrown e, t) => (Thrown e, t)
    end.
Proof.
  unfold Pipeline.pdfToQuestionsWorkflow,
    Pipeline.downloadAndSummarizePdfStep.
  destruct (Fetcher.execute fetch parseBuffer decodeURIComponent
                            (Pipeline.pdfUrl inputData) mastra)
    as [[s|e] t]; unfold bind, ret; [|reflexivity].
  destruct (Workflow.step parse mastra s) as [r t'].
  simpl. now rewrite app_nil_r.
Qed.

End WorkflowFacts.

(** X18: the tool never returns more questions than maxQuestions allows
    (10 when none is given), provided maxQuestions is not negative, and
    its questionCount is within the same bound; the workflow step, which
    passes no maxQuestions, never returns more than 10 questions.  Both
    hold with either copy of the parser. *)
Theorem X18_at_most_maxQuestions (mastra : option mastra) :
  (forall context r,
      let k := match QuestionTool.maxQuestions context with
               | Some n => n
               | None => 10%Z
               end in
      (0 <= k)%Z ->
      (result (QuestionTool.execute
                 Parser.parseQuestionsFromText context mastra) = Returned r
       \/ result (QuestionTool.execute
                    LineParser.parseQuestionsFromText context mastra)
          = Returned r) ->
      (Z.of_nat (length (QuestionTool.questions r)) <= k)%Z
      /\ (QuestionTool.questionCount r <= k)%Z)
  /\ (forall inputData r,
         (result (Workflow.step Parser.parseQuestionsFromText
                                mastra inputData) = Returned r
          \/ result (Workflow.step LineParser.parseQuestionsFromText
                                   mastra inputData) = Returned r) ->
         length (Workflow.questions r) <= 10).
Proof.
  assert (HP : forall text k, (0 <= k)%Z ->
                 (Z.of_nat (length (Parser.parseQuestionsFromText text k))
                  <= k)%Z)
    by (intros; now apply slice0_length).
  assert (HL : forall text k, (0 <= k)%Z ->
                 (Z.of_nat (length (LineParser.parseQuestionsFromText
                                      text k)) <= k)%Z)
    by (intros; now apply slice0_length).
  split.
  - intros context r k Hk [Hr | Hr].
    + now apply (tool_bound Parser.parseQuestionsFromText HP
                            context mastra r k).
    + now apply (tool_bound LineParser.parseQuestionsFromText HL
                            context mastra r k).
  - intros inputData r [Hr | Hr].
    + now apply (step_bound Parser.parseQuestionsFromText HP
                            mastra inputData r).
    + now apply (step_bound LineParser.parseQuestionsFromText HL
                            mastra inputData r).
Qed.

Lemma X18_at_most_maxQuestions_witness :
  (Z.of_nat (length [lit "What is X?"; lit "What is Y?"]) <= 2)%Z
  /\ (2 <= 2)%Z.
Proof.
  destruct (X18_at_most_maxQuestions
              (Some (mastraWith (lit "textQuestionAgent")
                                (agentAnswering oneLine)))) as [Htool _].
  apply (Htool {| QuestionTool.extractedText :=
                    lit "A summary of the document.";
                  QuestionTool.maxQuestions := Some 2%Z |}
               {| QuestionTool.questions :=
                    [lit "What is X?"; lit "What is Y?"];
                  QuestionTool.questionCount := 2;
                  QuestionTool.success := true |}).
  - simpl. lia.
  - left. reflexivity.
Defined.

Lemma fetcher_no_stream (fetch : jsstring -> outcome Fetcher.response)
      (parseBuffer : Buffer -> Extractor.parserEvent)
      (decodeURIComponent : jsstring -> outcome jsstring)
      (pdfUrl : jsstring) (mastra : option mastra)
      (request : list message) :
  ~ In (Stream request)
       (calls (Fetcher.execute fetch parseBuffer decodeURIComponent
                               pdfUrl mastra)).
Proof.
  pose proof (fetcher_run fetch parseBuffer decodeURIComponent
                          pdfUrl mastra) as Hrun.
  inversion Hrun as [inner Hf E|response Hf Hok E|response inner Hf Hok Hb E
                     |response pdfBuffer inner t Hf Hok Hb He E
                     |response pdfBuffer ex inner Hf Hok Hb He Hs E
                     |response pdfBuffer ex a inner Hf Hok Hb He Hs Hg E
                     |response pdfBuffer ex a summaryResult
                        Hf Hok Hb He Hs Hg E];
    unfold calls; cbn [snd]; intros Hin;
    repeat (destruct Hin as [Hin | Hin]; [discriminate Hin|]);
    try exact Hin.
  destruct pdfBuffer as [|b bs].
  - simpl in He. injection He as _ <-. exact Hin.
  - rewrite extract_run in He. injection He as _ <-.
    destruct Hin as [Hin | []]. discriminate Hin.
Qed.

(** X19: when the download step fails the workflow run ends there with its
    error: the question step does not run, and no request for questions is
    ever streamed. *)
Theorem X19_failed_download_ends_the_run
        (fetch : jsstring -> outcome Fetcher.response)
        (parseBuffer : Buffer -> Extractor.parserEvent)
        (decodeURIComponent : jsstring -> outcome jsstring)
        (parse : jsstring -> Z -> list jsstring)
        (mastra : option mastra) (inputData : Pipeline.pdfInput)
        (e : thrown) :
  result (Fetcher.execute fetch parseBuffer decodeURIComponent
                          (Pipeline.pdfUrl inputData) mastra) = Thrown e ->
  Pipeline.pdfToQuestionsWorkflow
    fetch parseBuffer decodeURIComponent parse mastra inputData
  = (Thrown e,
     calls (Fetcher.execute fetch parseBuffer decodeURIComponent
                            (Pipeline.pdfUrl inputData) mastra))
  /\ forall request,
      ~ In (Stream request)
           (calls (Pipeline.pdfToQuestionsWorkflow
                     fetch parseBuffer decodeURIComponent parse
                     mastra inputData)).
Proof.
  intros Hr. rewrite workflow_unfold.
  pose proof (fetcher_no_stream fetch parseBuffer decodeURIComponent
                                (Pipeline.pdfUrl inputData) mastra) as Hns.
  destruct (Fetcher.execute fetch parseBuffer decodeURIComponent
                            (Pipeline.pdfUrl inputData) mastra)
    as [[s|e'] t]; simpl in Hr; [discriminate Hr|].
  injection Hr as Hr. subst e'. split; [reflexivity|]. exact Hns.
Qed.

Lemma X19_failed_download_ends_the_run_witness :
  Pipeline.pdfToQuestionsWorkflow
    fetchStub (fun _ => Extractor.DataReady blankDocument) decodePlain
    Parser.parseQuestionsFromText
    (Some (mastraWith (lit "textQuestionAgent") (agentAnswering oneLine)))
    {| Pipeline.pdfUrl := lit "https://example.com/scan.pdf" |}
  = (Thrown (ErrorObject (lit "Failed to process PDF from URL: No text could be extracted from the PDF")),
     [Fetch (lit "https://example.com/scan.pdf"); ParseBuffer pdfBytes]).
Proof.
  apply (X19_failed_download_ends_the_run
           fetchStub (fun _ => Extractor.DataReady blankDocument) decodePlain
           Parser.parseQuestionsFromText
           (Some (mastraWith (lit "textQuestionAgent")
                             (agentAnswering oneLine)))
           {| Pipeline.pdfUrl := lit "https://example.com/scan.pdf" |}).
  reflexivity.
Defined.

(** X20: after a download step that succeeded the workflow run never
    fails, and the question step always reaches the tool: the summary it
    receives is never empty, so the step's missing-summary guard cannot
    fire.  The run returns the questions and the success flag of the tool
    run on the summary with no maxQuestions, and its calls are those of
    the download followed by those of the tool. *)
Theorem X20_summary_always_reaches_the_tool
        (fetch : jsstring -> outcome Fetcher.response)
        (parseBuffer : Buffer -> Extractor.parserEvent)
        (decodeURIComponent : jsstring -> outcome jsstring)
        (parse : jsstring -> Z -> list jsstring)
        (mastra : option mastra) (inputData : Pipeline.pdfInput)
        (pdfSummary : Workflow.pdfSummary) :
  result (Fetcher.execute fetch parseBuffer decodeURIComponent
                          (Pipeline.pdfUrl inputData) mastra)
  = Returned pdfSummary ->
  exists toolResult toolCalls,
    QuestionTool.execute
      parse
      {| QuestionTool.extractedText := Workflow.summary pdfSummary;
         QuestionTool.maxQuestions := None |} mastra
    = (Returned toolResult, toolCalls)
    /\ Pipeline.pdfToQuestionsWorkflow
         fetch parseBuffer decodeURIComponent parse mastra inputData
       = (Returned {| Workflow.questions :=
                        QuestionTool.questions toolResult;
                      Workflow.success := QuestionTool.success toolResult |},
          calls (Fetcher.execute fetch parseBuffer decodeURIComponent
                                 (Pipeline.pdfUrl inputData) mastra)
          ++ toolCalls).
Proof.
  intros Hr.
  assert (Hne : isEmpty (Workflow.summary pdfSummary) = false).
  { destruct (fetcher_returned fetch parseBuffer decodeURIComponent
                               _ mastra pdfSummary Hr)
      as (response & pdfBuffer & ex & a & g & _ & _ & _ & _ & _ & _ & _ & E).
    rewrite E. simpl. unfold orElse. now destruct (text g) as [[|c s]|]. }
  destruct (step_on_summary parse mastra pdfSummary Hne) as (tr & Ht & Hs).
  exists tr, (calls (Workflow.step parse mastra pdfSummary)).
  split; [exact Ht|]. rewrite workflow_unfold.
  destruct (Fetcher.execute fetch parseBuffer decodeURIComponent
                            (Pipeline.pdfUrl inputData) mastra)
    as [[s|e'] t]; simpl in Hr; [|discriminate Hr].
  injection Hr as Hr. subst s. now rewrite Hs.
Qed.

Lemma X20_summary_always_reaches_the_tool_witness :
  exists toolResult toolCalls,
    QuestionTool.execute
      Parser.parseQuestionsFromText
      {| QuestionTool.extractedText := lit "Summary could not be generated";
         QuestionTool.maxQuestions := None |}
      (Some (mastraWith (lit "pdfSummarizationAgent") agentSilent))
    = (Returned toolResult, toolCalls)
    /\ Pipeline.pdfToQuestionsWorkflow
         fetchStub parserStub decodePlain Parser.parseQuestionsFromText
         (Some (mastraWith (lit "pdfSummarizationAgent") agentSilent))
         {| Pipeline.pdfUrl := lit "https://example.com/document.pdf" |}
       = (Returned {| Workflow.questions :=
                        QuestionTool.questions toolResult;
                      Workflow.success := QuestionTool.success toolResult |},
          calls (Fetcher.execute
                   fetchStub parserStub decodePlain
                   (lit "https://example.com/document.pdf")
                   (Some (mastraWith (lit "pdfSummarizationAgent")
                                     agentSilent)))
          ++ toolCalls).
Proof.
  apply (X20_summary_always_reaches_the_tool
           fetchStub parserStub decodePlain Parser.parseQuestionsFromText
           (Some (mastraWith (lit "pdfSummarizationAgent") agentSilent))
           {| Pipeline.pdfUrl := lit "https://example.com/document.pdf" |}
           {| Workflow.summary := lit "Summary could not be generated";
              Workflow.fileSize := 4;
              Workflow.pagesCount := 1;
              Workflow.characterCount := 11 |}).
  reflexivity.
Defined.

(** X21: when the download step returns the placeholder summary and the
    question agent is registered, the workflow asks the question agent for
    up to 10 questions about the sentence 'Summary could not be generated'
    itself: the request it streams embeds the placeholder as the content to
    make questions from. *)
Theorem X21_questions_about_the_placeholder
        (fetch : jsstring -> outcome Fetcher.response)
        (parseBuffer : Buffer -> Extractor.parserEvent)
        (decodeURIComponent : jsstring -> outcome jsstring)
        (parse : jsstring -> Z -> list jsstring)
        (m : Effects.mastra) (a : agent) (inputData : Pipeline.pdfInput)
        (pdfSummary : Workflow.pdfSummary) :
  result (Fetcher.execute fetch parseBuffer decodeURIComponent
                          (Pipeline.pdfUrl inputData) (Some m))
  = Returned pdfSummary ->
  Workflow.summary pdfSummary = lit "Summary could not be generated" ->
  getAgent m (lit "textQuestionAgent") = Returned (Some a) ->
  calls (Pipeline.pdfToQuestionsWorkflow
           fetch parseBuffer decodeURIComponent parse (Some m) inputData)
  = calls (Fetcher.execute fetch parseBuffer decodeURIComponent
                           (Pipeline.pdfUrl inputData) (Some m))
    ++ [Stream [ {| role := lit "user";
                    content :=
                      QuestionTool.promptHead 10
                      ++ lit "Summary could not be generated" |} ]].
Proof.
  intros Hr Hsum Hg. rewrite workflow_unfold.
  destruct (Fetcher.execute fetch parseBuffer decodeURIComponent
                            (Pipeline.pdfUrl inputData) (Some m))
    as [[s|e'] t]; simpl in Hr; [|discriminate Hr].
  injection Hr as Hr. subst s.
  assert (Hne : isEmpty (Workflow.summary pdfSummary) = false)
    by now rewrite Hsum.
  destruct (step_on_summary parse (Some m) pdfSummary Hne) as (tr & Ht & _).
  assert (Hc : calls (QuestionTool.execute
                        parse
                        {| QuestionTool.extractedText :=
                             Workflow.summary pdfSummary;
                           QuestionTool.maxQuestions := None |} (Some m))
               = [Stream (QuestionTool.prompt
                            10 (Workflow.summary pdfSummary))]).
  { apply execute_calls_found with a; [reflexivity | | exact Hg].
    simpl. now rewrite Hsum. }
  rewrite Ht in Hc. unfold calls in *. cbn [snd] in *.
  rewrite Hc, Hsum. reflexivity.
Qed.

Lemma X21_questions_about_the_placeholder_witness :
  calls (Pipeline.pdfToQuestionsWorkflow
           fetchStub parserStub decodePlain Parser.parseQuestionsFromText
           (Some bothAgents)
           {| Pipeline.pdfUrl := lit "https://example.com/document.pdf" |})
  = calls (Fetcher.execute
             fetchStub parserStub decodePlain
             (lit "https://example.com/document.pdf") (Some bothAgents))
    ++ [Stream [ {| role := lit "user";
                    content :=
                      QuestionTool.promptHead 10
                      ++ lit "Summary could not be generated" |} ]].
Proof.
  apply (X21_questions_about_the_placeholder
           fetchStub parserStub decodePlain Parser.parseQuestionsFromText
           bothAgents (agentAnswering oneLine)
           {| Pipeline.pdfUrl := lit "https://example.com/document.pdf" |}
           {| Workflow.summary := lit "Summary could not be generated";
              Workflow.fileSize := 4;
              Workflow.pagesCount := 1;
              Workflow.characterCount := 11 |});
    reflexivity.
Defined.

(* ===================================================================== *)
(** * The parser against the text *)
(* ===================================================================== *)

(** ** A line feed before every marker *)

Section Scans.

Variable p : code_unit -> bool.

Lemma takeWhile_app_stop (r s : jsstring) :
  stopsAt p s -> takeWhile p (r ++ s) = takeWhile p r.
Proof.
  intros Hs. induction r as [|c r IH]; simpl.
  - destruct s as [|d s]; [reflexivity|]. simpl in *. now rewrite Hs.
  - destruct (p c); [now rewrite IH | reflexivity].
Qed.

Lemma dropWhile_app_stop (r s : jsstring) :
  stopsAt p s -> dropWhile p (r ++ s) = dropWhile p r ++ s.
Proof.
  intros Hs. induction r as [|c r IH]; simpl.
  - destruct s as [|d s]; [reflexivity|]. simpl in *. now rewrite Hs.
  - destruct (p c); [exact IH | reflexivity].
Qed.

Lemma takeWhile_app_within (r s : jsstring) :
  existsb (fun c => negb (p c)) r = true ->
  takeWhile p (r ++ s) = takeWhile p r
  /\ dropWhile p (r ++ s) = dropWhile p r ++ s
  /\ dropWhile p r <> [].
Proof.
  induction r as [|c r IH]; simpl; [discriminate|].
  destruct (p c); simpl.
  - intros H. destruct (IH H) as (H1 & H2 & H3). now rewrite H1, H2.
  - intros _. repeat split. discriminate.
Qed.

Lemma takeWhile_all (r s : jsstring) :
  forallb p r = true -> stopsAt p s ->
  takeWhile p (r ++ s) = r /\ dropWhile p (r ++ s) = s.
Proof.
  intros Hr Hs. induction r as [|c r IH]; simpl in *.
  - destruct s as [|d s]; [now split|]. simpl in *. now rewrite Hs.
  - apply andb_prop in Hr. destruct Hr as [-> Hr].
    destruct (IH Hr) as [-> ->]. now split.
Qed.

End Scans.

Lemma endsClean_suffix (a b : jsstring) : endsClean (a ++ b) -> endsClean b.
Proof.
  intros H init d ->. apply (H (a ++ init) d). now rewrite app_assoc.
Qed.

Lemma endsClean_not_digits (c : code_unit) (pre : jsstring) :
  endsClean (c :: pre) ->
  existsb (fun d => negb (isDigit d)) (c :: pre) = true.
Proof.
  intros H.
  destruct (exists_last (l := c :: pre)) as (init & d & E); [discriminate|].
  rewrite E, existsb_app. simpl. rewrite (H init d E).
  now rewrite !orb_true_r.
Qed.

Lemma matchMarker_app (c : code_unit) (pre s : jsstring) :
  endsClean (c :: pre) -> stopsAt isWhiteSpace s ->
  matchMarker ((c :: pre) ++ s)
  = match matchMarker (c :: pre) with
    | Some (m, rest) => Some (m, rest ++ s)
    | None => None
    end.
Proof.
  intros Hc Hs. unfold matchMarker.
  destruct (takeWhile_app_within isDigit (c :: pre) s
              (endsClean_not_digits c pre Hc)) as (-> & -> & Hne).
  destruct (takeWhile isDigit (c :: pre)) as [|d ds]; [reflexivity|].
  destruct (dropWhile isDigit (c :: pre)) as [|e r]; [congruence|].
  simpl. destruct ((e =? DOT) || (e =? RPAREN))%N; [|reflexivity].
  now rewrite (takeWhile_app_stop isWhiteSpace r s Hs),
    (dropWhile_app_stop isWhiteSpace r s Hs).
Qed.

(** The scan of a text is the scan of its two parts, when the first does
    not end in a digit and the second does not start with white space. *)
Lemma normalise_app (pre s : jsstring) :
  endsClean pre -> stopsAt isWhiteSpace s ->
  Parser.normalise (pre ++ s) = Parser.normalise pre ++ Parser.normalise s.
Proof.
  intros Hc Hs. remember (length pre) as n eqn:Hn.
  revert pre Hc Hn. induction n as [n IH] using lt_wf_ind.
  intros [|c pre] Hc Hn; [reflexivity|].
  rewrite (normalise_unfold ((c :: pre) ++ s)),
    (normalise_unfold (c :: pre)).
  change ((c :: pre) ++ s) with (c :: pre ++ s) at 1.
  cbv iota. change (c :: pre ++ s) with ((c :: pre) ++ s).
  rewrite (matchMarker_app c pre s Hc Hs).
  destruct (matchMarker (c :: pre)) as [[m rest]|] eqn:E.
  - apply matchMarker_split in E. destruct E as [E (d & m' & ->)].
    rewrite (IH (length rest)) with (pre := rest); try reflexivity.
    + simpl. now rewrite <- !app_assoc.
    + subst n. rewrite E, length_app. simpl. lia.
    + rewrite E in Hc. now apply endsClean_suffix in Hc.
  - simpl. f_equal. apply (IH (length pre)); try reflexivity.
    + subst n. simpl. lia.
    + now apply (endsClean_suffix [c]).
Qed.

Lemma digit_not_whiteSpace (c : code_unit) :
  isDigit c = true -> isWhiteSpace c = false.
Proof.
  intros H. destruct (isWhiteSpace c) eqn:E; [|reflexivity].
  apply whiteSpace_not_digit in E. congruence.
Qed.

(** At a marker: a line feed, the digits, the '.' or ')', the white space
    that follows, and the scan goes on behind it. *)
Lemma normalise_marker (ds rest : jsstring) (c : code_unit) :
  ds <> [] -> forallb isDigit ds = true -> c = DOT \/ c = RPAREN ->
  Parser.normalise (ds ++ c :: rest)
  = LF :: ds ++ c :: takeWhile isWhiteSpace rest
       ++ Parser.normalise (dropWhile isWhiteSpace rest).
Proof.
  intros Hne Hd Hc.
  assert (Hstop : stopsAt isDigit (c :: rest))
    by (destruct Hc as [-> | ->]; reflexivity).
  destruct (takeWhile_all isDigit ds (c :: rest) Hd Hstop) as [Ht Hr].
  rewrite normalise_unfold.
  destruct ds as [|d ds]; [congruence|].
  change ((d :: ds) ++ c :: rest) with (d :: ds ++ c :: rest) at 1.
  cbv iota. change (d :: ds ++ c :: rest) with ((d :: ds) ++ c :: rest).
  unfold matchMarker. rewrite Ht, Hr.
  assert (Hsep : ((c =? DOT) || (c =? RPAREN))%N = true)
    by (destruct Hc as [-> | ->]; reflexivity).
  rewrite Hsep. simpl. now rewrite <- !app_assoc.
Qed.

(** C2: in the copy of the tool that normalises, the parser puts a line
    feed immediately before every numbered-list marker, wherever it occurs:
    where a run of digits starts (the text before it does not end in a
    digit) and is followed by '.' or ')', the normalised text is the
    normalised text before it, a line feed, the digits, the '.' or ')', the
    white space that follows, and the normalised rest.  So the one-line text
    "1. What is X? 2. What is Y? 3. What is Z?" with maxQuestions = 10 gives
    exactly the three questions, and a line whose items are not separated
    by question marks is split at its markers too.  The line-based copy in
    [src/mastra/tools/generate-questions-from-text-tool.ts] has no such
    step: it returns the one line as a single element. *)
Theorem C2_numbered_items_split :
  (forall (pre ds rest : jsstring) (c : code_unit),
      endsClean pre ->
      ds <> [] -> forallb isDigit ds = true ->
      c = DOT \/ c = RPAREN ->
      Parser.normalise (pre ++ ds ++ c :: rest)
      = Parser.normalise pre
        ++ LF :: ds ++ c :: takeWhile isWhiteSpace rest
        ++ Parser.normalise (dropWhile isWhiteSpace rest))
  /\ Parser.normalise oneLine
     = LF :: lit "1. What is X? " ++ LF :: lit "2. What is Y? "
          ++ LF :: lit "3. What is Z?"
  /\ Parser.parseQuestionsFromText oneLine 10 = threeQuestions
  /\ Parser.parseQuestionsFromText midLine 10
     = [lit "Name the parts?"; lit "Why does it matter?"]
  /\ LineParser.parseQuestionsFromText oneLine 10
     = [lit "What is X? 2. What is Y? 3. What is Z?"]
  /\ LineParser.parseQuestionsFromText oneLine 10 <> threeQuestions.
Proof.
  split.
  - intros pre ds rest c Hpre Hne Hd Hc.
    rewrite normalise_app; [now rewrite normalise_marker| exact Hpre |].
    destruct ds as [|d ds]; [congruence|]. simpl in *.
    apply andb_prop in Hd. destruct Hd as [Hd _].
    now apply digit_not_whiteSpace.
  - repeat split; try reflexivity. vm_compute. discriminate.
Qed.

Lemma C2_numbered_items_split_witness :
  Parser.normalise (lit "Items: " ++ lit "2" ++ RPAREN :: lit " Why?")
  = Parser.normalise (lit "Items: ")
    ++ LF :: lit "2" ++ RPAREN :: takeWhile isWhiteSpace (lit " Why?")
    ++ Parser.normalise (dropWhile isWhiteSpace (lit " Why?")).
Proof.
  apply (proj1 C2_numbered_items_split
               (lit "Items: ") (lit "2") (lit " Why?") RPAREN).
  - intros init d E.
    assert (H : last (lit "Items: ") 0%N = last (init ++ [d]) 0%N)
      by now rewrite E.
    rewrite last_last in H. subst d. reflexivity.
  - discriminate.
  - reflexivity.
  - right. reflexivity.
Defined.



(** ** The candidates occur in the text in the order of the list *)
















